(** * Product chatbot: catalog cache and prompt construction

    A shallow embedding of [src/index.js]: the process-wide product cache
    ([productCache], [fetchProducts], [getProducts]), the prompt builder
    ([buildProductContext], the [constrainedPrompt] template) and the
    [/api/chat] handler.

    Conventions of the embedding.
    - A JavaScript value is a term of [value]; the values are those
      [JSON.parse] produces, and [undefined].  A number is a binary64 float.
    - Number::toString is not computed: it is the variable [numberToString]
      of section [Server], and every property holds for every such function.
    - ToString is partial, as in the language: an object with an own
      property [toString] (which, coming from JSON, is never a function)
      cannot be converted and the conversion throws a [TypeError].
    - A [string] is the sequence of code units of the JavaScript string, each
      unit below 256.
    - An exception is a [Throw] carrying the name and the message of the
      error object.
    - The outside world (clock, catalog source, generation engine) is a set
      of oracles, variables of section [Server]; the program state is the
      cache plus counters of the clock reads and network calls made so far.
    - Console output is left out, but not the conversions to string that
      building a log line forces: the one of line 94 can throw.  The log
      line that formats [lastUpdated] as a date cannot: [lastUpdated] only
      ever holds [null] or a reading of [Date.now()].
    - One request is run at a time; the interleaving of requests at the
      [await] points is not modelled. *)

From Stdlib Require Import ZArith List String Ascii Bool Lia QArith DecimalString.
From Stdlib Require Import Floats.PrimFloat Floats.FloatOps Floats.SpecFloat.
From Stdlib Require Import Numbers.Cyclic.Int63.Uint63.
Import ListNotations.

Open Scope string_scope.
Open Scope Z_scope.

(** ** Strings *)

Definition nl : string := String (ascii_of_nat 10) "".

(** [Array.prototype.join] on an array of strings. *)
Fixpoint join (sep : string) (parts : list string) : string :=
  match parts with
  | [] => ""
  | [s] => s
  | s :: rest => s ++ sep ++ join sep rest
  end.

(** White space and line terminators of ECMAScript among the code units
    below 256: TAB, LF, VT, FF, CR, SP and NBSP. *)
Definition isWhiteSpace (c : ascii) : bool :=
  let n := nat_of_ascii c in
  ((9 <=? n) && (n <=? 13) || (n =? 32) || (n =? 160))%nat.

Fixpoint trimStart (s : string) : string :=
  match s with
  | EmptyString => EmptyString
  | String c rest => if isWhiteSpace c then trimStart rest else s
  end.

Fixpoint trimEnd (s : string) : string :=
  match s with
  | EmptyString => EmptyString
  | String c rest =>
      match trimEnd rest with
      | EmptyString => if isWhiteSpace c then EmptyString else String c EmptyString
      | kept => String c kept
      end
  end.

(** [String.prototype.trim]. *)
Definition trim (s : string) : string := trimEnd (trimStart s).

(** [String.prototype.split] with a one-character separator. *)
Fixpoint split (sep : ascii) (s : string) : list string :=
  match s with
  | EmptyString => [EmptyString]
  | String c rest =>
      if Ascii.eqb c sep then EmptyString :: split sep rest
      else match split sep rest with
           | [] => [String c EmptyString]
           | piece :: pieces => String c piece :: pieces
           end
  end.

(** [haystack.includes(needle)]. *)
Fixpoint includes (needle haystack : string) : bool :=
  prefix needle haystack
  || match haystack with
     | EmptyString => false
     | String _ rest => includes needle rest
     end.

(** ** Exceptions *)

Record jserror : Type := mkError { ename : string; message : string }.

Inductive result (A : Type) : Type :=
| Ok (a : A)
| Throw (e : jserror).

Arguments Ok {A} a.
Arguments Throw {A} e.

Definition TypeError (msg : string) : jserror := mkError "TypeError" msg.
Definition Error (msg : string) : jserror := mkError "Error" msg.

(** ** Monads: exceptions, and exceptions over a state *)

Class Monad (m : Type -> Type) : Type :=
  { ret : forall {A}, A -> m A;
    bind : forall {A B}, m A -> (A -> m B) -> m B }.

Declare Scope js_scope.
Delimit Scope js_scope with js.
Notation "x <- c1 ;; c2" := (bind c1 (fun x => c2))
  (at level 100, c1 at next level, right associativity) : js_scope.
Notation "c1 ;;; c2" := (bind c1 (fun _ => c2))
  (at level 100, right associativity) : js_scope.
Open Scope js_scope.

#[export] Instance result_Monad : Monad result :=
  {| ret := fun A a => Ok a;
     bind := fun A B c k => match c with
                            | Ok a => k a
                            | Throw e => Throw e
                            end |}.

(** A computation over a state [S]: it ends with a value or an exception,
    and the state changes made before the exception stay. *)
Definition stateful (S A : Type) : Type := S -> result A * S.

#[export] Instance stateful_Monad (S : Type) : Monad (stateful S) :=
  {| ret := fun A a w => (Ok a, w);
     bind := fun A B c k w => match c w with
                              | (Ok a, w') => k a w'
                              | (Throw e, w') => (Throw e, w')
                              end |}.

Definition throw {S A : Type} (e : jserror) : stateful S A := fun w => (Throw e, w).

(** [await] of a promise that is already settled. *)
Definition await {S A : Type} (r : result A) : stateful S A := fun w => (r, w).

(** [try { body } catch (error) { handler }]. *)
Definition tryCatch {S A : Type} (body : stateful S A) (handler : jserror -> stateful S A)
  : stateful S A :=
  fun w => match body w with
           | (Ok a, w') => (Ok a, w')
           | (Throw e, w') => handler e w'
           end.

(** [Array.prototype.map] with a callback that may throw: elements are
    visited from the first, and the first exception ends the call. *)
Definition arrayMap {A B : Type} (f : A -> result B) : list A -> result (list B) :=
  fix visit (xs : list A) : result (list B) :=
    match xs with
    | [] => Ok []
    | x :: rest =>
        match f x with
        | Ok y => match visit rest with
                  | Ok ys => Ok (y :: ys)
                  | Throw e => Throw e
                  end
        | Throw e => Throw e
        end
    end.

(** ** Values *)

#[warnings="-register-all"]
Inductive value : Type :=
| VUndefined
| VNull
| VBool (b : bool)
| VNum (x : float)
| VStr (s : string)
| VArr (elems : list value)
| VObj (props : list (string * value)).

(** The number that is a length.  Lengths of arrays and strings are below
    2^53, where the conversion is exact. *)
Definition numberOfNat (n : nat) : float :=
  PrimFloat.of_uint63 (Uint63.of_Z (Z.of_nat n)).

(** The [typeof] operator. *)
Definition typeof (v : value) : string :=
  match v with
  | VUndefined => "undefined"
  | VNull => "object"
  | VBool _ => "boolean"
  | VNum _ => "number"
  | VStr _ => "string"
  | VArr _ => "object"
  | VObj _ => "object"
  end.

(** ToBoolean: [undefined], [null], [false], [+0], [-0], [NaN] and the empty
    string are falsy; arrays and objects, also empty ones, are truthy. *)
Definition truthy (v : value) : bool :=
  match v with
  | VUndefined | VNull => false
  | VBool b => b
  | VNum x => negb (PrimFloat.eqb x 0%float || PrimFloat.is_nan x)
  | VStr s => negb (s =? "")%string
  | VArr _ | VObj _ => true
  end.

(** [a || b] on values already evaluated. *)
Definition jsOr (a b : value) : value := if truthy a then a else b.

Definition isArray (v : value) : bool :=
  match v with
  | VArr _ => true
  | _ => false
  end.

(** Own property of a parsed object: the first binding of the key. *)
Fixpoint lookup (k : string) (props : list (string * value)) : value :=
  match props with
  | [] => VUndefined
  | (k', v) :: rest => if (k =? k')%string then v else lookup k rest
  end.

(** The parsed object has an own property [k]. *)
Definition hasOwn (k : string) (props : list (string * value)) : bool :=
  existsb (fun kv => (fst kv =? k)%string) props.

(** ToNumber of a timestamp slot that holds [null] or a number. *)
Definition toNumber (t : option Z) : Z :=
  match t with
  | None => 0
  | Some n => n
  end.

(** Property read [v.k] for the names the program reads.  None of them is an
    array index or an inherited property, so outside objects only [length]
    is ever defined; reading from [null] or [undefined] throws. *)
Definition getProp (v : value) (k : string) : result value :=
  match v with
  | VUndefined =>
      Throw (TypeError ("Cannot read properties of undefined (reading '" ++ k ++ "')"))
  | VNull =>
      Throw (TypeError ("Cannot read properties of null (reading '" ++ k ++ "')"))
  | VObj props => Ok (lookup k props)
  | VArr elems =>
      Ok (if (k =? "length")%string then VNum (numberOfNat (List.length elems))
          else VUndefined)
  | VStr s =>
      Ok (if (k =? "length")%string then VNum (numberOfNat (String.length s))
          else VUndefined)
  | VBool _ | VNum _ => Ok VUndefined
  end.

(** Object destructuring [const { k } = v]. *)
Definition destructure (v : value) (k : string) : result value :=
  match v with
  | VUndefined =>
      Throw (TypeError ("Cannot destructure property '" ++ k
                        ++ "' of 'req.body' as it is undefined."))
  | VNull =>
      Throw (TypeError ("Cannot destructure property '" ++ k
                        ++ "' of 'req.body' as it is null."))
  | _ => getProp v k
  end.

(** [data.content || data.products || data.items || data]: a property is read
    only when the ones before it were falsy. *)
Definition selectProducts (d : value) : result value :=
  content <- getProp d "content" ;;
  if truthy content then ret content else
  products <- getProp d "products" ;;
  if truthy products then ret products else
  items <- getProp d "items" ;;
  if truthy items then ret items else
  ret d.

(** The elements of a value that passed [Array.isArray]. *)
Definition elements (v : value) : list value :=
  match v with
  | VArr elems => elems
  | _ => []
  end.

(** ** The product cache *)

Record Cache : Type := mkCache
  { data : list value;
    lastUpdated : option Z;
    ttl : Z }.

(** The snapshot the process starts with. *)
Definition productCache : Cache :=
  {| data := []; lastUpdated := None; ttl := 1000 * 60 * 10 |}.

(** What [fetch] resolves to: the status and the two ways of reading the
    body, each of which may reject. *)
Record Response : Type := mkResponse
  { status : float;
    text : result string;
    json : result value }.

(** [response.ok]: [status >= 200 && status < 300]. *)
Definition ok (r : Response) : bool :=
  PrimFloat.leb 200%float (status r) && PrimFloat.ltb (status r) 300%float.

(** The state of the process: the cache snapshot, and how many times the
    clock has been read and the catalog source has been called. *)
Record World : Type := mkWorld
  { cache : Cache;
    ticks : nat;
    fetches : nat }.

Definition boot : World := {| cache := productCache; ticks := 0; fetches := 0 |}.

(** ** The chat endpoint: replies and validation *)

Inductive Payload : Type :=
| ErrorPayload (error : string)
| ChatPayload (response : string) (tokenEstimate : float) (productsUsed : nat).

Record Reply : Type := mkReply
  { statusCode : Z;
    payload : Payload }.

(** [prompt.trim()]. *)
Definition callTrim (v : value) : result string :=
  match v with
  | VStr s => Ok (trim s)
  | VUndefined => Throw (TypeError "Cannot read properties of undefined (reading 'trim')")
  | VNull => Throw (TypeError "Cannot read properties of null (reading 'trim')")
  | _ => Throw (TypeError "prompt.trim is not a function")
  end.

(** [!prompt || typeof prompt !== 'string' || prompt.trim().length === 0],
    evaluated from the left and stopping at the first true operand. *)
Definition invalidPrompt (prompt : value) : result bool :=
  if negb (truthy prompt) then ret true else
  if negb (typeof prompt =? "string")%string then ret true else
  trimmed <- callTrim prompt ;;
  ret (String.length trimmed =? 0)%nat.

(** [response.split(' ').length]. *)
Definition wordCount (response : string) : nat := List.length (split " "%char response).

(** The number literal [1.33]: the binary64 value nearest to it. *)
#[warnings="-inexact-float"]
Definition factor : float := 1.33%float.

(** [response.split(' ').length * 1.33], the binary64 product. *)
Definition tokenEstimateOf (response : string) : float :=
  PrimFloat.mul (numberOfNat (wordCount response)) factor.

Definition promptRequired : string :=
  "Prompt is required and must be a non-empty string.".

(** The template literal bound to [constrainedPrompt], around its two
    substitutions once they are strings. *)
Definition constrainedPrompt (prompt context : string) : string :=
  nl ++
  "      [Respond in under 40 words]" ++ nl ++
  "      User Query: " ++ prompt ++ nl ++
  "      " ++ nl ++
  "      Available Products:" ++ nl ++
  "      " ++ context ++ nl ++
  "      " ++ nl ++
  "      Response Requirements:" ++ nl ++
  "      - Concise bullet points" ++ nl ++
  "      - Max 200 tokens" ++ nl ++
  "      - Prioritize most relevant products" ++ nl ++
  "    ".

(** ** The server, over its environment *)

Section Server.

(** Number::toString. *)
Variable numberToString : float -> string.

(** ToString, as a template literal applies it to a substitution.  An
    object is converted by its [toString] method: the inherited one gives
    "[object Object]"; an own property [toString] hides it and, not being a
    function, is passed over, [valueOf] gives no primitive either, and the
    conversion throws.  An array is converted by joining the conversions of
    its elements, [null] and [undefined] counting as the empty string. *)
Fixpoint ToString (v : value) : result string :=
  match v with
  | VUndefined => Ok "undefined"
  | VNull => Ok "null"
  | VBool true => Ok "true"
  | VBool false => Ok "false"
  | VNum x => Ok (numberToString x)
  | VStr s => Ok s
  | VArr elems =>
      match arrayMap (fun e => match e with
                               | VUndefined | VNull => Ok ""
                               | _ => ToString e
                               end) elems with
      | Ok parts => Ok (join "," parts)
      | Throw e => Throw e
      end
  | VObj props =>
      if hasOwn "toString" props
      then Throw (TypeError "Cannot convert object to primitive value")
      else Ok "[object Object]"
  end.

(** *** The prompt *)

(** The template literal of the [map] callback of [buildProductContext]:
    each substitution is evaluated and converted before the next one. *)
Definition productBlock (p : value) : result string :=
  title <- getProp p "title" ;;
  title <- ToString (jsOr title (VStr "Unnamed Product")) ;;
  description <- getProp p "description" ;;
  description <- ToString (jsOr description (VStr "No description")) ;;
  price <- getProp p "price" ;;
  price <- ToString (jsOr price (VStr "N/A")) ;;
  category <- getProp p "category" ;;
  category <- ToString (jsOr category (VStr "Uncategorized")) ;;
  ret (nl ++
       "    Product: " ++ title ++ nl ++
       "    Description: " ++ description ++ nl ++
       "    Price: " ++ price ++ nl ++
       "    Category: " ++ category ++ nl ++
       "  ").

Definition buildProductContext (products : list value) : result string :=
  blocks <- arrayMap productBlock products ;;
  ret (join (nl ++ nl) blocks).

(** [PromptBuilder.Build]: the prompt the handler sends to the engine, from
    the query and the product list. *)
Definition buildPrompt (prompt : value) (products : list value) : result string :=
  query <- ToString prompt ;;
  context <- buildProductContext products ;;
  ret (constrainedPrompt query context).

(** *** The oracles *)

(** The value of the [k]-th read of [Date.now()]. *)
Variable now : nat -> Z.
(** How the [k]-th call [fetch(PRODUCTS_API)] settles. *)
Variable upstream : nat -> result Response.
(** What the generation engine answers to a prompt:
    [(await model.generateContent(p)).response.text()]. *)
Variable engine : string -> result string.

Definition M : Type -> Type := stateful World.

Definition dateNow : M Z :=
  fun w => (Ok (now (ticks w)),
            {| cache := cache w; ticks := S (ticks w); fetches := fetches w |}).

Definition fetch : M Response :=
  fun w => (upstream (fetches w),
            {| cache := cache w; ticks := ticks w; fetches := S (fetches w) |}).

Definition readCache : M Cache := fun w => (Ok (cache w), w).

(** The assignment [productCache = { ... }]. *)
Definition writeCache (c : Cache) : M unit :=
  fun w => (Ok tt, {| cache := c; ticks := ticks w; fetches := fetches w |}).

Definition generateContent (p : string) : M string := await (engine p).

(** *** The cache *)

(** [fetchProducts], the fetch without the cache check (no caller). *)
Definition fetchProducts : M (list value) :=
  tryCatch
    (response <- fetch ;;
     if negb (ok response) then
       throw (Error ("Products API failed with status "
                     ++ numberToString (status response)))
     else
       data <- await (json response) ;;
       products <- await (selectProducts data) ;;
       if negb (isArray products) then
         throw (Error "Invalid products data format")
       else
         t <- dateNow ;;
         writeCache {| data := elements products;
                       lastUpdated := Some t;
                       ttl := 1000 * 60 * 10 |} ;;;
         ret (elements products))
    (fun error => throw error).

(** The cache check of [getProducts]: the clock is read only when the
    cached list is not empty. *)
Definition cacheIsValid : M bool :=
  c <- readCache ;;
  if (0 <? List.length (data c))%nat then
    t <- dateNow ;;
    ret (t - toNumber (lastUpdated c) <? ttl c)
  else ret false.

(** [getProducts].  The log line after the selection reads the [length] of
    the selection and converts it to a string, before the array test. *)
Definition getProducts : M (list value) :=
  tryCatch
    (valid <- cacheIsValid ;;
     if valid then
       c <- readCache ;;
       ret (data c)
     else
       response <- fetch ;;
       if negb (ok response) then
         errorBody <- await (text response) ;;
         throw (Error ("Products API failed: " ++ numberToString (status response)))
       else
         data <- await (json response) ;;
         products <- await (selectProducts data) ;;
         len <- await (getProp products "length") ;;
         parsed <- await (ToString len) ;;
         if negb (isArray products) then
           throw (Error "Products data is not an array")
         else
           t <- dateNow ;;
           writeCache {| data := elements products;
                         lastUpdated := Some t;
                         ttl := 1000 * 60 * 10 |} ;;;
           ret (elements products))
    (fun error => throw error).

(** *** The chat endpoint *)

(** The handler of [POST /api/chat], applied to [req.body].  The engine's
    configuration ([maxOutputTokens], [temperature]) is fixed and belongs to
    the [engine] oracle. *)
Definition chat (body : value) : M Reply :=
  tryCatch
    (prompt <- await (destructure body "prompt") ;;
     invalid <- await (invalidPrompt prompt) ;;
     if invalid then
       ret {| statusCode := 400; payload := ErrorPayload promptRequired |}
     else
       products <- getProducts ;;
       query <- await (ToString prompt) ;;
       context <- await (buildProductContext products) ;;
       response <- generateContent (constrainedPrompt query context) ;;
       ret {| statusCode := 200;
              payload := ChatPayload response (tokenEstimateOf response)
                                     (List.length products) |})
    (fun error =>
       ret {| statusCode := 500; payload := ErrorPayload (message error) |}).

(** The cache snapshots the process can hold: the one it starts with, and
    any left by a call that touches the cache. *)
Inductive reachable : World -> Prop :=
| reach_boot : reachable boot
| reach_getProducts w : reachable w -> reachable (snd (getProducts w))
| reach_fetchProducts w : reachable w -> reachable (snd (fetchProducts w))
| reach_chat w body : reachable w -> reachable (snd (chat body w)).

(** ** Vocabulary of the properties *)

(** The value of [v.k] when [v] is neither [null] nor [undefined], for the
    property names the program reads other than [length]. *)
Definition field (v : value) (k : string) : value :=
  match v with
  | VObj props => lookup k props
  | _ => VUndefined
  end.

(** A value whose properties can be read. *)
Definition readable (v : value) : Prop := v <> VNull /\ v <> VUndefined.

(** A value that ToString converts: no object with an own [toString] is
    met on the way through its arrays. *)
Fixpoint printable (v : value) : bool :=
  match v with
  | VArr elems => forallb printable elems
  | VObj props => negb (hasOwn "toString" props)
  | _ => true
  end.

(** A field value the template can show: it is falsy, and the placeholder
    is shown for it, or it can be converted. *)
Definition showable (v : value) : bool := negb (truthy v) || printable v.

(** A product the template can render: its fields can be read, and each of
    the four can be shown. *)
Definition renderable (p : value) : Prop :=
  readable p
  /\ showable (field p "title") = true
  /\ showable (field p "description") = true
  /\ showable (field p "price") = true
  /\ showable (field p "category") = true.

(** The snapshot is valid at time [t]: its list is not empty and its age is
    below its ttl. *)
Definition valid (c : Cache) (t : Z) : bool :=
  (0 <? List.length (data c))%nat && (t - toNumber (lastUpdated c) <? ttl c).

(** The first of the named fields whose value is truthy, the whole payload
    when there is none. *)
Fixpoint firstTruthy (names : list string) (d : value) : value :=
  match names with
  | [] => d
  | k :: rest => if truthy (field d k) then field d k else firstTruthy rest d
  end.

(** The payload is an object with an own property [k]. *)
Definition hasField (d : value) (k : string) : bool :=
  match d with
  | VObj props => hasOwn k props
  | _ => false
  end.

(** The selection in the words of the specification: the first of the named
    fields that exists, whatever its value, the whole payload when none
    exists. *)
Fixpoint firstPresent (names : list string) (d : value) : value :=
  match names with
  | [] => d
  | k :: rest => if hasField d k then field d k else firstPresent rest d
  end.

(** What a template substitution [${v || placeholder}] gives. *)
Definition shown (v : value) (placeholder : string) : result string :=
  if truthy v then ToString v else Ok placeholder.

(** The fixed text of one product block around its four substitutions. *)
Definition blockTemplate (title description price category : string) : string :=
  nl ++
  "    Product: " ++ title ++ nl ++
  "    Description: " ++ description ++ nl ++
  "    Price: " ++ price ++ nl ++
  "    Category: " ++ category ++ nl ++
  "  ".

(** The block [b] is the rendering of the product [p]: the template around
    what its four fields show, the placeholder standing for a field the
    product lacks. *)
Definition rendering (p : value) (b : string) : Prop :=
  exists title description price category,
    b = blockTemplate title description price category
    /\ shown (field p "title") "Unnamed Product" = Ok title
    /\ shown (field p "description") "No description" = Ok description
    /\ shown (field p "price") "N/A" = Ok price
    /\ shown (field p "category") "Uncategorized" = Ok category
    /\ (field p "title" = VUndefined -> title = "Unnamed Product")
    /\ (field p "description" = VUndefined -> description = "No description")
    /\ (field p "price" = VUndefined -> price = "N/A")
    /\ (field p "category" = VUndefined -> category = "Uncategorized").

(** What the fetch path of [getProducts] computes from the settled network
    call before it touches the cache: the selected array, or the error. *)
Definition fetched (r : result Response) : result value :=
  response <- r ;;
  if ok response then
    d <- json response ;;
    p <- selectProducts d ;;
    len <- getProp p "length" ;;
    _ <- ToString len ;;
    if isArray p then ret p else Throw (Error "Products data is not an array")
  else
    _ <- text response ;;
    Throw (Error ("Products API failed: " ++ numberToString (status response))).

(** The snapshot a successful fetch installs. *)
Definition installed (products : list value) (t : Z) : Cache :=
  {| data := products; lastUpdated := Some t; ttl := 1000 * 60 * 10 |}.

(** The ways a fetch fails, each with the error [getProducts] then throws:
    the network call rejects; the status is not a success; the body does not
    parse; the payload cannot be probed; the length of the selection cannot
    be converted for the log; the selected candidate is not an array. *)
Inductive fetchFails : result Response -> jserror -> Prop :=
| fails_network e :
    fetchFails (Throw e) e
| fails_status r body :
    ok r = false -> text r = Ok body ->
    fetchFails (Ok r) (Error ("Products API failed: " ++ numberToString (status r)))
| fails_status_body r e :
    ok r = false -> text r = Throw e ->
    fetchFails (Ok r) e
| fails_parse r e :
    ok r = true -> json r = Throw e ->
    fetchFails (Ok r) e
| fails_probe r d e :
    ok r = true -> json r = Ok d -> selectProducts d = Throw e ->
    fetchFails (Ok r) e
| fails_log r d p len e :
    ok r = true -> json r = Ok d -> selectProducts d = Ok p ->
    getProp p "length" = Ok len -> ToString len = Throw e ->
    fetchFails (Ok r) e
| fails_shape r d p len parsed :
    ok r = true -> json r = Ok d -> selectProducts d = Ok p ->
    getProp p "length" = Ok len -> ToString len = Ok parsed ->
    isArray p = false ->
    fetchFails (Ok r) (Error "Products data is not an array").

(** A [prompt] that fails validation: missing, not a string, or blank. *)
Inductive badPrompt : value -> Prop :=
| bad_missing : badPrompt VUndefined
| bad_type v : typeof v <> "string" -> badPrompt v
| bad_blank s : trim s = "" -> badPrompt (VStr s).

(** The ways the pipeline of the chat handler fails after or instead of
    validation, with the error thrown and the state it leaves: reading the
    body, getting the products, building the context, and generating. *)
Inductive pipelineFails (body : value) (w : World) : jserror -> World -> Prop :=
| fails_body e :
    destructure body "prompt" = Throw e ->
    pipelineFails body w e w
| fails_products p e w1 :
    destructure body "prompt" = Ok p -> invalidPrompt p = Ok false ->
    getProducts w = (Throw e, w1) ->
    pipelineFails body w e w1
| fails_context query ps e w1 :
    destructure body "prompt" = Ok (VStr query) ->
    invalidPrompt (VStr query) = Ok false ->
    getProducts w = (Ok ps, w1) ->
    buildProductContext ps = Throw e ->
    pipelineFails body w e w1
| fails_engine query ps context e w1 :
    destructure body "prompt" = Ok (VStr query) ->
    invalidPrompt (VStr query) = Ok false ->
    getProducts w = (Ok ps, w1) ->
    buildProductContext ps = Ok context ->
    engine (constrainedPrompt query context) = Throw e ->
    pipelineFails body w e w1.

Definition badRequest : Reply :=
  {| statusCode := 400; payload := ErrorPayload promptRequired |}.

Definition serverError (e : jserror) : Reply :=
  {| statusCode := 500; payload := ErrorPayload (message e) |}.

(** What the built prompt contains, [false] when building throws. *)
Definition promptIncludes (needle : string) (prompt : value) (products : list value) : bool :=
  match buildPrompt prompt products with
  | Ok p => includes needle p
  | Throw _ => false
  end.

(** The number of occurrences of a character in a string. *)
Fixpoint occurrences (c : ascii) (s : string) : nat :=
  match s with
  | EmptyString => 0%nat
  | String c' rest => ((if Ascii.eqb c' c then 1 else 0) + occurrences c rest)%nat
  end.

(** Every character of the string is white space. *)
Fixpoint allWhiteSpace (s : string) : bool :=
  match s with
  | EmptyString => true
  | String c rest => isWhiteSpace c && allWhiteSpace rest
  end.

(** The word count in the words of the specification: the number of words
    of the text, a word being a maximal run of characters that are not
    white space.  [inside] tells that the character before was in a word. *)
Fixpoint wordsFrom (inside : bool) (s : string) : nat :=
  match s with
  | EmptyString => 0%nat
  | String c rest =>
      if isWhiteSpace c then wordsFrom false rest
      else ((if inside then 0 else 1) + wordsFrom true rest)%nat
  end.

Definition words (s : string) : nat := wordsFrom false s.

(** The snapshot is the initial one, or one installed at a clock reading
    already made. *)
Definition stamped (w : World) : Prop :=
  cache w = productCache
  \/ exists ps k, cache w = installed ps (now k) /\ (k < ticks w)%nat.

End Server.

(** ** Sample environments *)

(** A number printer for the samples: the decimal digits of a number that
    is an integer.  The samples hold no other number. *)
Definition decimal (x : float) : string :=
  match Prim2SF x with
  | S754_zero _ => "0"
  | S754_infinity false => "Infinity"
  | S754_infinity true => "-Infinity"
  | S754_nan => "NaN"
  | S754_finite negative m e =>
      let n := if 0 <=? e then Z.pos m * 2 ^ e else Z.pos m / 2 ^ (- e) in
      (if negative then "-" else "") ++ NilZero.string_of_int (Z.to_int n)
  end.

Definition sneaker : value := VObj [("title", VStr "Sneaker"); ("price", VNum 20)].
Definition freebie : value := VObj [("price", VNum 0)].

(** An object that cannot be converted to a string: JSON [{"toString": 1}]. *)
Definition unprintable : value := VObj [("toString", VNum 1)].

(** A product whose title is such an object. *)
Definition oddTitle : value := VObj [("title", unprintable)].

Definition respond (code : float) (body : result value) : result Response :=
  Ok {| status := code; text := Ok ""; json := body |}.

Definition noon : nat -> Z := fun _ => 1700000000000.
Definition offline : nat -> result Response :=
  fun _ => Throw (mkError "FetchError" "request to catalog failed").
Definition serving (payload : value) : nat -> result Response :=
  fun _ => respond 200 (Ok payload).
Definition echo : string -> result string := fun _ => Ok "Try the Sneaker today".
Definition silent : string -> result string :=
  fun _ => Throw (Error "generation failed").

(** An engine that answers with two bullet points on two lines. *)
Definition bullets : string -> result string :=
  fun _ => Ok ("- Sneaker" ++ nl ++ "- Boot").

(** A snapshot taken one minute before [noon]. *)
Definition warm : World :=
  {| cache := {| data := [sneaker]; lastUpdated := Some (1700000000000 - 60000);
                 ttl := 1000 * 60 * 10 |};
     ticks := 0; fetches := 0 |}.

(** A snapshot taken eleven minutes before [noon]. *)
Definition stale : World :=
  {| cache := {| data := [sneaker]; lastUpdated := Some (1700000000000 - 660000);
                 ttl := 1000 * 60 * 10 |};
     ticks := 0; fetches := 0 |}.

Definition itemsAndProducts : value :=
  VObj [("items", VArr [VNum 1]); ("products", VArr [VNum 2])].

(** A clock that advances by one second at each reading. *)
Definition ticking : nat -> Z := fun k => 1700000000000 + 1000 * Z.of_nat k.

(** A clock that advances by eleven minutes at each reading. *)
Definition leaping : nat -> Z := fun k => 1700000000000 + 660000 * Z.of_nat k.

Definition cheapShoes : value := VObj [("prompt", VStr "Show me cheap shoes")].

(** * Properties *)

(** ** The cache check *)

Ltac run :=
  cbv [getProducts fetchProducts cacheIsValid tryCatch throw await readCache
       writeCache dateNow fetch generateContent bind ret stateful_Monad
       result_Monad M].

Lemma valid_iff c t :
  valid c t = true <-> data c <> [] /\ t - toNumber (lastUpdated c) < ttl c.
Proof.
  unfold valid. rewrite andb_true_iff, Z.ltb_lt. destruct (data c); simpl.
  - split; [intros [H _]; discriminate | intros [H _]; now elim H].
  - split; intros [_ H]; split; auto; discriminate.
Qed.

Lemma valid_empty c t : data c = [] -> valid c t = false.
Proof. unfold valid. now intros ->. Qed.

(** What the check returns, and what it leaves: the cache and the count of
    network calls are untouched. *)
Lemma cacheIsValid_run now w :
  exists n,
    cacheIsValid now w
    = (Ok (valid (cache w) (now (ticks w))),
       {| cache := cache w; ticks := n; fetches := fetches w |}).
Proof.
  run. unfold valid. destruct w as [c k f]; simpl.
  destruct (0 <? List.length (data c))%nat; simpl; eauto.
Qed.

(** ** Cache hits *)

(** The run of [getProducts] on a valid snapshot. *)
Lemma getProducts_on_valid fmt now upstream w :
  valid (cache w) (now (ticks w)) = true ->
  exists n,
    getProducts fmt now upstream w
    = (Ok (data (cache w)), {| cache := cache w; ticks := n; fetches := fetches w |}).
Proof.
  intros Hv. destruct (cacheIsValid_run now w) as [n Hrun]. exists n.
  unfold getProducts, tryCatch, readCache. cbn [bind ret stateful_Monad].
  rewrite Hrun, Hv. reflexivity.
Qed.

(** C2. When the snapshot's list is not empty and its age, the clock reading
    minus [lastUpdated], is strictly below its ttl, [getProducts] returns
    exactly the stored list, makes no network call and leaves the snapshot
    as it is. *)
Theorem getProducts_hit fmt now upstream w :
  data (cache w) <> [] ->
  now (ticks w) - toNumber (lastUpdated (cache w)) < ttl (cache w) ->
  fst (getProducts fmt now upstream w) = Ok (data (cache w))
  /\ fetches (snd (getProducts fmt now upstream w)) = fetches w
  /\ cache (snd (getProducts fmt now upstream w)) = cache w.
Proof.
  intros Hne Hage.
  assert (Hv : valid (cache w) (now (ticks w)) = true) by (apply valid_iff; auto).
  destruct (cacheIsValid_run now w) as [n Hrun].
  unfold getProducts, tryCatch. cbn [bind stateful_Monad].
  rewrite Hrun, Hv. cbn. auto.
Qed.

Lemma getProducts_hit_witness :
  fst (getProducts decimal noon offline warm) = Ok [sneaker]
  /\ fetches (snd (getProducts decimal noon offline warm)) = 0%nat
  /\ cache (snd (getProducts decimal noon offline warm)) = cache warm.
Proof.
  apply (getProducts_hit decimal noon offline warm).
  - simpl. discriminate.
  - simpl. unfold noon. lia.
Defined.

(** ** Cache misses *)

Lemma selectProducts_readable d p :
  selectProducts d = Ok p -> exists len, getProp p "length" = Ok len.
Proof.
  unfold selectProducts. cbn [bind ret result_Monad].
  assert (Htruthy : forall v, truthy v = true -> exists len, getProp v "length" = Ok len).
  { intros [] Hv; simpl in *; try discriminate; eauto. }
  destruct d; simpl; try discriminate;
    try (intros [= <-]; simpl; eauto; fail).
  repeat match goal with
         | |- context [truthy ?v] =>
             let E := fresh "E" in destruct (truthy v) eqn:E
         end; intros [= <-]; simpl; eauto.
Qed.

(** The fetch path of [getProducts], from the state the check leaves. *)
Lemma getProducts_after_check fmt now upstream w w1 :
  cacheIsValid now w = (Ok false, w1) ->
  getProducts fmt now upstream w
  = match fetched fmt (upstream (fetches w1)) with
    | Ok p => (Ok (elements p),
               {| cache := installed (elements p) (now (ticks w1));
                  ticks := S (ticks w1); fetches := S (fetches w1) |})
    | Throw e => (Throw e,
                  {| cache := cache w1; ticks := ticks w1; fetches := S (fetches w1) |})
    end.
Proof.
  intros Hrun. unfold getProducts, tryCatch. cbn [bind stateful_Monad].
  rewrite Hrun. unfold fetched, fetch, throw, await.
  cbn [bind ret result_Monad stateful_Monad fetches cache ticks].
  destruct (upstream (fetches w1)) as [r | e]; [ | reflexivity].
  destruct (ok r); cbn [negb].
  - destruct (json r) as [d | e]; [ | reflexivity].
    destruct (selectProducts d) as [p | e] eqn:Hsel; [ | reflexivity].
    destruct (selectProducts_readable _ _ Hsel) as [len ->].
    destruct (ToString fmt len) as [parsed | e]; [ | reflexivity].
    destruct (isArray p); reflexivity.
  - destruct (text r); reflexivity.
Qed.

(** When the check fails, [getProducts] makes one network call; it installs
    a fresh snapshot and returns the fetched list when the fetch path
    succeeds, and otherwise throws its error with the snapshot untouched. *)
Lemma getProducts_miss fmt now upstream w :
  valid (cache w) (now (ticks w)) = false ->
  exists n,
    getProducts fmt now upstream w
    = match fetched fmt (upstream (fetches w)) with
      | Ok p => (Ok (elements p),
                 {| cache := installed (elements p) (now n);
                    ticks := S n; fetches := S (fetches w) |})
      | Throw e => (Throw e,
                    {| cache := cache w; ticks := n; fetches := S (fetches w) |})
      end.
Proof.
  intros Hv. destruct (cacheIsValid_run now w) as [n Hrun]. exists n.
  rewrite Hv in Hrun.
  now rewrite (getProducts_after_check fmt now upstream w _ Hrun).
Qed.

Lemma fetchFails_fetched fmt r e : fetchFails fmt r e <-> fetched fmt r = Throw e.
Proof.
  split.
  - intros H; destruct H; unfold fetched; cbn [bind ret result_Monad];
      repeat match goal with H : _ = _ |- _ => rewrite H end; reflexivity.
  - unfold fetched. cbn [bind ret result_Monad].
    destruct r as [r | e0]; [ | intros [= <-]; constructor].
    destruct (ok r) eqn:Hok.
    + destruct (json r) as [d | e0] eqn:Hj; [ | intros [= <-]; now apply fails_parse].
      destruct (selectProducts d) as [p | e0] eqn:Hs;
        [ | intros [= <-]; now apply fails_probe with d].
      destruct (getProp p "length") as [len | e0] eqn:Hlen.
      * destruct (ToString fmt len) as [parsed | e0] eqn:Hstr;
          [ | intros [= <-]; now apply fails_log with d p len].
        destruct (isArray p) eqn:Ha; [discriminate | ].
        intros [= <-]. now apply fails_shape with d p len parsed.
      * destruct (selectProducts_readable _ _ Hs) as [len Habs]. congruence.
    + destruct (text r) as [b | e0] eqn:Ht; intros [= <-].
      * now apply fails_status with b.
      * now apply fails_status_body.
Qed.

(** C3. When the snapshot's list is empty, whatever its [lastUpdated] and
    whatever the clock says, [getProducts] calls the catalog source once, and
    its outcome is the outcome of that fetch, never the stored list. *)
Theorem getProducts_empty_fetches fmt now upstream w :
  data (cache w) = [] ->
  fetches (snd (getProducts fmt now upstream w)) = S (fetches w)
  /\ fst (getProducts fmt now upstream w)
     = match fetched fmt (upstream (fetches w)) with
       | Ok p => Ok (elements p)
       | Throw e => Throw e
       end.
Proof.
  intros Hempty.
  destruct (getProducts_miss fmt now upstream w) as [n ->].
  - now apply valid_empty.
  - destruct (fetched fmt (upstream (fetches w))); simpl; auto.
Qed.

Lemma getProducts_empty_fetches_witness :
  fetches (snd (getProducts decimal noon (serving (VArr [sneaker])) boot)) = 1%nat
  /\ fst (getProducts decimal noon (serving (VArr [sneaker])) boot) = Ok [sneaker].
Proof.
  apply (getProducts_empty_fetches decimal noon (serving (VArr [sneaker])) boot).
  reflexivity.
Defined.

(** Only a successful fetch changes the snapshot. *)
Lemma getProducts_changes_on_success fmt now upstream w :
  cache (snd (getProducts fmt now upstream w)) <> cache w ->
  exists p, fetched fmt (upstream (fetches w)) = Ok p
            /\ fst (getProducts fmt now upstream w) = Ok (elements p).
Proof.
  intros Hchg. destruct (valid (cache w) (now (ticks w))) eqn:Hv.
  - destruct (getProducts_on_valid fmt now upstream w Hv) as [n Hrun].
    rewrite Hrun in Hchg. now elim Hchg.
  - destruct (getProducts_miss fmt now upstream w Hv) as [n Hrun].
    rewrite Hrun in *. destruct (fetched fmt (upstream (fetches w))) as [p | e].
    + exists p. auto.
    + now elim Hchg.
Qed.

(** C4. When the snapshot is not valid and the fetch fails (the network
    call rejects, the status is not a success, the body does not parse, or
    the selected candidate is not an array), [getProducts] throws that error
    and the snapshot stays as it was; the stored list is not returned.  From
    any state, a call that changes the snapshot is one whose fetch
    succeeded. *)
Theorem getProducts_failure_keeps_cache fmt now upstream w e :
  valid (cache w) (now (ticks w)) = false ->
  fetchFails fmt (upstream (fetches w)) e ->
  fst (getProducts fmt now upstream w) = Throw e
  /\ cache (snd (getProducts fmt now upstream w)) = cache w
  /\ (forall w0,
         cache (snd (getProducts fmt now upstream w0)) <> cache w0 ->
         exists p, fetched fmt (upstream (fetches w0)) = Ok p
                   /\ fst (getProducts fmt now upstream w0) = Ok (elements p)).
Proof.
  intros Hv Hfail. apply fetchFails_fetched in Hfail.
  destruct (getProducts_miss fmt now upstream w Hv) as [n ->].
  rewrite Hfail. simpl. repeat split.
  apply getProducts_changes_on_success.
Qed.

Lemma getProducts_failure_keeps_cache_witness :
  fst (getProducts decimal noon (fun _ => respond 503 (Ok VNull)) stale)
  = Throw (Error "Products API failed: 503")
  /\ cache (snd (getProducts decimal noon (fun _ => respond 503 (Ok VNull)) stale))
     = cache stale.
Proof.
  pose proof (getProducts_failure_keeps_cache
                decimal noon (fun _ => respond 503 (Ok VNull)) stale
                (Error "Products API failed: 503")) as H.
  assert (Hv : valid (cache stale) (noon (ticks stale)) = false) by reflexivity.
  assert (Hf : fetchFails decimal (respond 503 (Ok VNull))
                          (Error "Products API failed: 503")).
  { apply (fails_status decimal {| status := 503; text := Ok ""; json := Ok VNull |} "");
      reflexivity. }
  destruct (H Hv Hf) as (Hthrow & Hcache & _). split; assumption.
Defined.

(** ** Selection of the product list *)

Lemma getProp_field d k :
  readable d -> k <> "length" -> getProp d k = Ok (field d k).
Proof.
  intros [Hnull Hundef] Hk. apply String.eqb_neq in Hk.
  destruct d; simpl; try congruence; now rewrite Hk.
Qed.

(** The selection reads the payload's fields in the order [content],
    [products], [items] and keeps the first truthy one. *)
Lemma selectProducts_firstTruthy d :
  readable d ->
  selectProducts d = Ok (firstTruthy ["content"; "products"; "items"] d).
Proof.
  intros Hd. unfold selectProducts. cbn [bind ret result_Monad firstTruthy].
  rewrite !(getProp_field d) by (auto; discriminate).
  destruct (truthy (field d "content")); [reflexivity | ].
  destruct (truthy (field d "products")); [reflexivity | ].
  destruct (truthy (field d "items")); reflexivity.
Qed.

(** The length of an array is a number, which is always converted. *)
Lemma array_length_prints fmt p :
  isArray p = true ->
  exists len parsed, getProp p "length" = Ok len /\ ToString fmt len = Ok parsed.
Proof.
  destruct p; try discriminate. intros _.
  eexists. eexists. split; reflexivity.
Qed.

(** A payload offering both [items] and [products]: the code returns the
    products, the order "content, items, products" names the items. *)
Lemma selection_order_counterexample :
  fst (getProducts decimal noon (serving itemsAndProducts) boot)
  <> Ok (elements (firstPresent ["content"; "items"; "products"] itemsAndProducts)).
Proof.
  assert (Hrun : fst (getProducts decimal noon (serving itemsAndProducts) boot)
                 = Ok [VNum 2]) by reflexivity.
  rewrite Hrun. intros H.
  pose proof (f_equal (fun r => match r with
                                | Ok [VNum x] => PrimFloat.eqb x 2
                                | _ => false
                                end) H) as E.
  vm_compute in E. discriminate.
Qed.

(** A field that exists with a falsy value is passed over, not selected. *)
Example falsy_content_is_skipped :
  selectProducts (VObj [("content", VNum 0); ("products", VArr [sneaker])])
  = Ok (VArr [sneaker]).
Proof. reflexivity. Qed.

(** C1, amended. On a miss, when the response is a success and parses to a
    payload other than [null], the list is selected by reading the fields
    [content], then [products], then [items], keeping the first whose value
    is truthy, and the whole payload when none is; a field that is absent or
    holds a falsy value is passed over.  A selection that is an array is
    returned.  Any other selection makes [getProducts] throw: "Products data
    is not an array", unless the conversion of the selection's [length] for
    the log line has thrown before the array test, and then that error. *)
Theorem getProducts_selects_first_truthy fmt now upstream w r d :
  valid (cache w) (now (ticks w)) = false ->
  upstream (fetches w) = Ok r -> ok r = true -> json r = Ok d -> readable d ->
  selectProducts d = Ok (firstTruthy ["content"; "products"; "items"] d)
  /\ (isArray (firstTruthy ["content"; "products"; "items"] d) = true ->
      fst (getProducts fmt now upstream w)
      = Ok (elements (firstTruthy ["content"; "products"; "items"] d)))
  /\ (isArray (firstTruthy ["content"; "products"; "items"] d) = false ->
      exists len,
        getProp (firstTruthy ["content"; "products"; "items"] d) "length" = Ok len
        /\ fst (getProducts fmt now upstream w)
           = match ToString fmt len with
             | Ok _ => Throw (Error "Products data is not an array")
             | Throw e => Throw e
             end).
Proof.
  intros Hv Hup Hok Hjson Hd.
  pose proof (selectProducts_firstTruthy d Hd) as Hsel. split; [exact Hsel | ].
  destruct (getProducts_miss fmt now upstream w Hv) as [n ->].
  unfold fetched. rewrite Hup. cbn [bind ret result_Monad].
  rewrite Hok, Hjson, Hsel.
  set (sel := firstTruthy ["content"; "products"; "items"] d) in *. split.
  - intros Harr. destruct (array_length_prints fmt sel Harr) as (len & parsed & -> & ->).
    now rewrite Harr.
  - intros Harr. destruct (selectProducts_readable _ _ Hsel) as [len Hlen].
    exists len. split; [exact Hlen | ]. rewrite Hlen.
    destruct (ToString fmt len); [now rewrite Harr | reflexivity].
Qed.

Lemma getProducts_selects_first_truthy_witness :
  selectProducts itemsAndProducts = Ok (VArr [VNum 2])
  /\ fst (getProducts decimal noon (serving itemsAndProducts) boot) = Ok [VNum 2].
Proof.
  destruct (getProducts_selects_first_truthy
              decimal noon (serving itemsAndProducts) boot
              {| status := 200; text := Ok ""; json := Ok itemsAndProducts |}
              itemsAndProducts) as (Hsel & Harr & _).
  - reflexivity.
  - reflexivity.
  - reflexivity.
  - reflexivity.
  - split; discriminate.
  - split; [exact Hsel | apply Harr; reflexivity].
Defined.

(** A bare object with none of the three fields is selected whole and
    rejected. *)
Example bare_object_is_rejected :
  fst (getProducts decimal noon (serving (VObj [("total", VNum 3)])) boot)
  = Throw (Error "Products data is not an array").
Proof. reflexivity. Qed.

(** An object whose [length] cannot be converted is rejected by the log
    line, before the array test. *)
Example odd_length_is_rejected :
  fst (getProducts decimal noon (serving (VObj [("length", unprintable)])) boot)
  = Throw (TypeError "Cannot convert object to primitive value").
Proof. reflexivity. Qed.

(** ** Conversion to string *)

(** Induction on a value through the elements of its arrays. *)
Lemma value_array_ind (P : value -> Prop) :
  P VUndefined -> P VNull -> (forall b, P (VBool b)) -> (forall x, P (VNum x)) ->
  (forall s, P (VStr s)) ->
  (forall elems, Forall P elems -> P (VArr elems)) ->
  (forall props, P (VObj props)) ->
  forall v, P v.
Proof.
  intros Hu Hn Hb Hx Hs Ha Ho. fix IH 1.
  intros [ | | b | x | s | elems | props];
    [exact Hu | exact Hn | apply Hb | apply Hx | apply Hs | | apply Ho].
  apply Ha. induction elems as [ | e rest IHrest]; constructor; [apply IH | exact IHrest].
Qed.

Lemma arrayMap_cons {A B : Type} (f : A -> result B) x rest :
  arrayMap f (x :: rest)
  = match f x with
    | Ok y => match arrayMap f rest with
              | Ok ys => Ok (y :: ys)
              | Throw e => Throw e
              end
    | Throw e => Throw e
    end.
Proof. reflexivity. Qed.

(** ToString converts exactly the printable values, and what it throws is
    a [TypeError]. *)
Lemma ToString_cases fmt v :
  (printable v = true /\ exists s, ToString fmt v = Ok s)
  \/ (printable v = false /\ exists e, ToString fmt v = Throw e /\ ename e = "TypeError").
Proof.
  induction v as [ | | b | x | s | elems IH | props] using value_array_ind;
    try (left; split; [reflexivity | simpl; eauto]; fail).
  - left. split; [reflexivity | destruct b; simpl; eauto].
  - cbn [printable ToString].
    assert (Hmap :
      (forallb printable elems = true
       /\ exists parts, arrayMap (fun e => match e with
                                           | VUndefined | VNull => Ok ""
                                           | _ => ToString fmt e
                                           end) elems = Ok parts)
      \/ (forallb printable elems = false
          /\ exists e, arrayMap (fun e => match e with
                                          | VUndefined | VNull => Ok ""
                                          | _ => ToString fmt e
                                          end) elems = Throw e
                       /\ ename e = "TypeError")).
    { induction IH as [ | v rest Hv _ IHrest]; [left; simpl; eauto | ].
      rewrite arrayMap_cons. cbn [forallb].
      destruct Hv as [[Hp (s & Hs)] | [Hp (e & He & Hname)]]; rewrite Hp; cbn [andb].
      - assert (Hhead : exists s', match v with
                                   | VUndefined | VNull => Ok ""
                                   | _ => ToString fmt v
                                   end = Ok s')
          by (destruct v; eauto).
        destruct Hhead as [s' ->].
        destruct IHrest as [[Hall (parts & ->)] | [Hall (e & -> & Hname)]]; eauto.
      - right. split; [reflexivity | ].
        assert (Hhead : match v with
                        | VUndefined | VNull => Ok ""
                        | _ => ToString fmt v
                        end = Throw e)
          by (destruct v; try exact He; simpl in Hp; discriminate).
        rewrite Hhead. eauto. }
    destruct Hmap as [[Hall (parts & ->)] | [Hall (e & -> & Hname)]]; eauto.
  - cbn [printable ToString]. destruct (hasOwn "toString" props); cbn [negb].
    + right. split; [reflexivity | eexists; split; reflexivity].
    + left. eauto.
Qed.

Lemma ToString_jsOr fmt v placeholder :
  ToString fmt (jsOr v (VStr placeholder)) = shown fmt v placeholder.
Proof. unfold jsOr, shown. now destruct (truthy v). Qed.

(** What a substitution shows: a string exactly when the value is
    showable, and otherwise a [TypeError]. *)
Lemma shown_cases fmt v placeholder :
  (showable v = true /\ exists s, shown fmt v placeholder = Ok s)
  \/ (showable v = false
      /\ exists e, shown fmt v placeholder = Throw e /\ ename e = "TypeError").
Proof.
  unfold showable, shown. destruct (truthy v); cbn [negb orb]; [ | left; eauto].
  apply ToString_cases.
Qed.

Lemma shown_absent fmt placeholder : shown fmt VUndefined placeholder = Ok placeholder.
Proof. reflexivity. Qed.

(** ** The catalog text *)

Lemma prefix_app x b : prefix x (x ++ b) = true.
Proof.
  induction x as [ | c x IH]; simpl.
  - now destruct b.
  - destruct (ascii_dec c c) as [_ | Hc]; [exact IH | now elim Hc].
Qed.

Lemma includes_here x s : prefix x s = true -> includes x s = true.
Proof. intros H. destruct s; cbn [includes]; rewrite H; reflexivity. Qed.

Lemma includes_later x c s : includes x s = true -> includes x (String c s) = true.
Proof. intros H. cbn [includes]. rewrite H. apply orb_true_r. Qed.

Lemma includes_app x a b : includes x (a ++ x ++ b) = true.
Proof.
  induction a as [ | c a IH]; simpl append.
  - apply includes_here, prefix_app.
  - now apply includes_later.
Qed.

Lemma append_assoc (a b c : string) : (a ++ b) ++ c = a ++ b ++ c.
Proof. induction a; simpl; congruence. Qed.

Lemma append_empty_r (a : string) : a ++ "" = a.
Proof. induction a; simpl; congruence. Qed.

Lemma join_splits sep x xs :
  In x xs -> exists a b, join sep xs = a ++ x ++ b.
Proof.
  induction xs as [ | y ys IH]; [intros [] | ].
  intros [-> | Hin].
  - destruct ys as [ | z zs].
    + exists "", "". simpl. symmetry. apply append_empty_r.
    + exists "", (sep ++ join sep (z :: zs)). reflexivity.
  - destruct (IH Hin) as (a & b & Hjoin).
    destruct ys as [ | z zs]; [destruct Hin | ].
    exists (y ++ sep ++ a), b.
    change (join sep (y :: z :: zs)) with (y ++ sep ++ join sep (z :: zs)).
    rewrite Hjoin, !append_assoc. reflexivity.
Qed.

(** The callback on a product whose fields can be read: the template around
    what the four fields show, converted in the order of the template. *)
Lemma productBlock_shown fmt p :
  readable p ->
  productBlock fmt p
  = match shown fmt (field p "title") "Unnamed Product" with
    | Throw e => Throw e
    | Ok title =>
        match shown fmt (field p "description") "No description" with
        | Throw e => Throw e
        | Ok description =>
            match shown fmt (field p "price") "N/A" with
            | Throw e => Throw e
            | Ok price =>
                match shown fmt (field p "category") "Uncategorized" with
                | Throw e => Throw e
                | Ok category => Ok (blockTemplate title description price category)
                end
            end
        end
    end.
Proof.
  intros Hp. unfold productBlock. cbn [bind ret result_Monad].
  rewrite !(getProp_field p) by (auto; discriminate).
  rewrite !ToString_jsOr. reflexivity.
Qed.

Lemma readable_dec p : {readable p} + {~ readable p}.
Proof.
  destruct p; try (left; split; discriminate); right; intros [H1 H2]; congruence.
Qed.

(** The callback gives the rendering of a renderable product, and throws a
    [TypeError] on any other value. *)
Lemma productBlock_cases fmt p :
  (renderable p /\ exists b, productBlock fmt p = Ok b /\ rendering fmt p b)
  \/ (~ renderable p
      /\ exists e, productBlock fmt p = Throw e /\ ename e = "TypeError").
Proof.
  destruct (readable_dec p) as [Hp | Hp].
  - rewrite (productBlock_shown fmt p Hp). unfold renderable, rendering.
    destruct (shown_cases fmt (field p "title") "Unnamed Product")
      as [[Ht (t & Et)] | [Ht (e & Et & Hname)]]; rewrite Et;
      [ | right; split; [intros (_ & H & _); congruence | eauto]].
    destruct (shown_cases fmt (field p "description") "No description")
      as [[Hd (d & Ed)] | [Hd (e & Ed & Hname)]]; rewrite Ed;
      [ | right; split; [intros (_ & _ & H & _); congruence | eauto]].
    destruct (shown_cases fmt (field p "price") "N/A")
      as [[Hr (r & Er)] | [Hr (e & Er & Hname)]]; rewrite Er;
      [ | right; split; [intros (_ & _ & _ & H & _); congruence | eauto]].
    destruct (shown_cases fmt (field p "category") "Uncategorized")
      as [[Hc (c & Ec)] | [Hc (e & Ec & Hname)]]; rewrite Ec;
      [ | right; split; [intros (_ & _ & _ & _ & H); congruence | eauto]].
    left. split; [auto | ]. eexists. split; [reflexivity | ].
    exists t, d, r, c. repeat split; auto;
      intros Habs; rewrite Habs, shown_absent in *; congruence.
  - right. split; [intros [H _]; contradiction | ].
    destruct p; try (elim Hp; split; discriminate); eexists; split; reflexivity.
Qed.

(** The map over the products: the renderings in the order of the list when
    every product is renderable, a [TypeError] otherwise. *)
Lemma arrayMap_cases fmt ps :
  (Forall renderable ps
   /\ exists blocks, arrayMap (productBlock fmt) ps = Ok blocks
                     /\ Forall2 (rendering fmt) ps blocks)
  \/ (~ Forall renderable ps
      /\ exists e, arrayMap (productBlock fmt) ps = Throw e /\ ename e = "TypeError").
Proof.
  induction ps as [ | p ps IH].
  - left. split; [constructor | ]. exists []. split; [reflexivity | constructor].
  - rewrite arrayMap_cons.
    destruct (productBlock_cases fmt p) as [[Hp (b & -> & Hb)] | [Hp (e & -> & Hname)]].
    + destruct IH as [[Hall (blocks & -> & Hblocks)] | (Hnot & e & -> & Hname)].
      * left. split; [now constructor | ]. exists (b :: blocks).
        split; [reflexivity | now constructor].
      * right. split; [ | eauto]. intros Hall. inversion Hall; subst. contradiction.
    + right. split; [ | eauto]. intros Hall. inversion Hall; subst. contradiction.
Qed.

(** A product that is [null] makes the callback throw. *)
Example null_product_throws :
  buildProductContext decimal [sneaker; VNull]
  = Throw (TypeError "Cannot read properties of null (reading 'title')").
Proof. reflexivity. Qed.

(** A list of one product whose title is an object that cannot be
    converted: no catalog text is produced. *)
Lemma unprintable_title_counterexample :
  buildProductContext decimal [oddTitle]
  = Throw (TypeError "Cannot convert object to primitive value").
Proof. reflexivity. Qed.

(** C7, amended. For every list of products that can be rendered (no
    element is [null], and no field shown is an object that cannot be
    converted to a string), the catalog text is built, and it consists of
    one block per product, in the order of the list, nothing sorted and
    nothing dropped, joined by a blank line; each block is the fixed
    template around its four fields, and a field the product lacks shows
    its placeholder. *)
Theorem buildProductContext_blocks fmt ps :
  Forall renderable ps ->
  exists blocks,
    buildProductContext fmt ps = Ok (join (nl ++ nl) blocks)
    /\ Forall2 (rendering fmt) ps blocks.
Proof.
  intros Hps. unfold buildProductContext. cbn [bind ret result_Monad].
  destruct (arrayMap_cases fmt ps) as [[_ (blocks & -> & Hblocks)] | [Hnot _]].
  - exists blocks. split; [reflexivity | exact Hblocks].
  - contradiction.
Qed.

Lemma buildProductContext_blocks_witness :
  exists blocks,
    buildProductContext decimal [sneaker; freebie; sneaker] = Ok (join (nl ++ nl) blocks)
    /\ Forall2 (rendering decimal) [sneaker; freebie; sneaker] blocks.
Proof.
  apply (buildProductContext_blocks decimal [sneaker; freebie; sneaker]).
  repeat constructor; discriminate.
Defined.

(** ** The prompt *)

Lemma includes_inside x a b c d : includes x (a ++ (c ++ x ++ d) ++ b) = true.
Proof.
  replace (a ++ (c ++ x ++ d) ++ b) with ((a ++ c) ++ x ++ (d ++ b))
    by now rewrite !append_assoc.
  apply includes_app.
Qed.

(** The prompt holds the catalog text between its fixed parts. *)
Lemma constrainedPrompt_includes_block q block blocks :
  In block blocks ->
  includes block (constrainedPrompt q (join (nl ++ nl) blocks)) = true.
Proof.
  intros Hin. destruct (join_splits (nl ++ nl) block blocks Hin) as (a & b & ->).
  unfold constrainedPrompt.
  repeat match goal with
         | |- includes _ (?s ++ (_ ++ block ++ _) ++ _) = true => apply includes_inside
         | |- includes ?x (?s ++ ?t ++ ?u) = true =>
             rewrite <- (append_assoc s t u)
         end.
Qed.

Lemma Forall2_In_left {A B : Type} (R : A -> B -> Prop) xs ys x :
  Forall2 R xs ys -> In x xs -> exists y, In y ys /\ R x y.
Proof.
  induction 1 as [ | x0 y0 xs ys Hxy _ IH]; [intros [] | ].
  intros [<- | Hin].
  - exists y0. split; [now left | exact Hxy].
  - destruct (IH Hin) as (y & Hy & Hr). exists y. split; [now right | exact Hr].
Qed.

(** A product priced 0 and without a title, in the prompt: the price line
    reads "N/A", and no line reads "Price: 0". *)
Lemma zero_price_counterexample :
  promptIncludes decimal "Price: 0" (VStr "laptops") [freebie] = false
  /\ promptIncludes decimal ("Price: N/A" ++ nl) (VStr "laptops") [freebie] = true.
Proof. split; reflexivity. Qed.

(** C5, amended. In the built prompt every product shows as its block; a
    product missing its title shows "Unnamed Product", and a product whose
    price is 0 shows "N/A": a field is printed only when its value is truthy,
    and the placeholder stands for a field that is absent or falsy. *)
Theorem falsy_fields_show_placeholder fmt query ps p :
  Forall renderable ps -> In p ps ->
  exists prompt title description price category,
    buildPrompt fmt (VStr query) ps = Ok prompt
    /\ includes (blockTemplate title description price category) prompt = true
    /\ (if truthy (field p "title") then ToString fmt (field p "title")
        else Ok "Unnamed Product") = Ok title
    /\ (if truthy (field p "description") then ToString fmt (field p "description")
        else Ok "No description") = Ok description
    /\ (if truthy (field p "price") then ToString fmt (field p "price")
        else Ok "N/A") = Ok price
    /\ (if truthy (field p "category") then ToString fmt (field p "category")
        else Ok "Uncategorized") = Ok category
    /\ (field p "title" = VUndefined -> title = "Unnamed Product")
    /\ (forall x, field p "price" = VNum x -> PrimFloat.eqb x 0 = true -> price = "N/A").
Proof.
  intros Hps Hin.
  destruct (arrayMap_cases fmt ps) as [[_ (blocks & Hmap & Hblocks)] | [Hnot _]];
    [ | contradiction].
  destruct (Forall2_In_left _ _ _ _ Hblocks Hin)
    as (b & Hb & t & d & r & c & -> & Ht & Hd & Hr & Hc & Habsent & _).
  exists (constrainedPrompt query (join (nl ++ nl) blocks)), t, d, r, c.
  split; [ | split; [now apply constrainedPrompt_includes_block | ]].
  - unfold buildPrompt, buildProductContext. cbn [ToString bind ret result_Monad].
    now rewrite Hmap.
  - repeat split; try assumption.
    intros x Hx Hzero. rewrite Hx in Hr. unfold shown in Hr. cbn [truthy] in Hr.
    rewrite Hzero in Hr. cbn in Hr. congruence.
Qed.

Lemma falsy_fields_show_placeholder_witness :
  exists prompt title description price category,
    buildPrompt decimal (VStr "laptops") [sneaker; freebie] = Ok prompt
    /\ includes (blockTemplate title description price category) prompt = true
    /\ title = "Unnamed Product"
    /\ price = "N/A".
Proof.
  destruct (falsy_fields_show_placeholder decimal "laptops" [sneaker; freebie] freebie)
    as (prompt & t & d & r & c & Hbuild & Hblock & _ & _ & _ & _ & Ht & Hr).
  - repeat constructor; discriminate.
  - simpl. auto.
  - exists prompt, t, d, r, c. repeat split.
    + exact Hbuild.
    + exact Hblock.
    + apply Ht. reflexivity.
    + apply (Hr 0%float); reflexivity.
Defined.

(** The prompt for "laptops" over the empty list, whole: nothing but white
    space stands under the "Available Products:" heading, and no phrase says
    that there are zero products.  And prompt construction has a failure
    mode: a list holding [null] makes it throw. *)
Lemma empty_catalog_counterexample :
  buildPrompt decimal (VStr "laptops") []
  = Ok (nl ++
        "      [Respond in under 40 words]" ++ nl ++
        "      User Query: laptops" ++ nl ++
        "      " ++ nl ++
        "      Available Products:" ++ nl ++
        "      " ++ nl ++
        "      " ++ nl ++
        "      Response Requirements:" ++ nl ++
        "      - Concise bullet points" ++ nl ++
        "      - Max 200 tokens" ++ nl ++
        "      - Prioritize most relevant products" ++ nl ++
        "    ")
  /\ buildPrompt decimal (VStr "laptops") [VNull]
     = Throw (TypeError "Cannot read properties of null (reading 'title')").
Proof. split; reflexivity. Qed.

(** C6, amended. Building the prompt for "laptops", as for any query
    string, over the empty product list succeeds.  The catalog text of zero
    products is the empty string, so only white space stands between the
    "Available Products:" heading and the "Response Requirements:" heading,
    and the prompt still carries the fixed instructions, the word limit and
    the bullet-point requirement among them. *)
Theorem buildPrompt_empty_catalog fmt :
  (forall query,
      buildPrompt fmt (VStr query) [] = Ok (constrainedPrompt query ""))
  /\ buildProductContext fmt [] = Ok ""
  /\ promptIncludes fmt ("User Query: laptops" ++ nl) (VStr "laptops") [] = true
  /\ promptIncludes fmt ("Available Products:" ++ nl ++ "      " ++ nl ++ "      " ++ nl ++
                         "      Response Requirements:")
                    (VStr "laptops") [] = true
  /\ promptIncludes fmt "[Respond in under 40 words]" (VStr "laptops") [] = true
  /\ promptIncludes fmt "- Concise bullet points" (VStr "laptops") [] = true
  /\ promptIncludes fmt "- Max 200 tokens" (VStr "laptops") [] = true
  /\ promptIncludes fmt "- Prioritize most relevant products" (VStr "laptops") [] = true.
Proof. repeat split; reflexivity. Qed.

(** ** The chat endpoint *)

Lemma invalidPrompt_bad p : badPrompt p -> invalidPrompt p = Ok true.
Proof.
  intros [ | v Htype | s Hblank]; unfold invalidPrompt.
  - reflexivity.
  - destruct (truthy v); [ | reflexivity]. cbn [negb].
    destruct v; try reflexivity. now elim Htype.
  - destruct (truthy (VStr s)); [ | reflexivity].
    cbn [negb typeof callTrim bind ret result_Monad]. rewrite String.eqb_refl.
    cbn [negb]. now rewrite Hblank.
Qed.

Lemma invalidPrompt_rejects p : invalidPrompt p = Ok true -> badPrompt p.
Proof.
  destruct p as [ | | b | n | s | elems | props];
    try (intros _; first [apply bad_missing | apply bad_type; discriminate]).
  unfold invalidPrompt. destruct (truthy (VStr s)) eqn:Hs; cbn [negb].
  - cbn [typeof callTrim bind ret result_Monad]. rewrite String.eqb_refl. cbn [negb].
    intros [= Hlen]. apply Nat.eqb_eq in Hlen. apply bad_blank.
    now destruct (trim s).
  - intros _. apply bad_blank. simpl in Hs. apply negb_false_iff, String.eqb_eq in Hs.
    now subst s.
Qed.

Lemma invalidPrompt_good p : invalidPrompt p = Ok false -> ~ badPrompt p.
Proof. intros Hgood Hbad. apply invalidPrompt_bad in Hbad. congruence. Qed.

Lemma invalidPrompt_total p : exists b, invalidPrompt p = Ok b.
Proof.
  unfold invalidPrompt. destruct (truthy p); cbn [negb]; eauto.
  destruct p; cbn; eauto.
Qed.

(** A prompt that passes the validation is a string. *)
Lemma accepted_is_string p : ~ badPrompt p -> exists query, p = VStr query.
Proof.
  intros Hgood. destruct p as [ | | b | n | s | elems | props]; eauto;
    elim Hgood; first [apply bad_missing | apply bad_type; discriminate].
Qed.

Lemma accepted_is_valid p : ~ badPrompt p -> invalidPrompt p = Ok false.
Proof.
  intros Hgood. destruct (invalidPrompt_total p) as [[ | ] Hinv]; [ | exact Hinv].
  elim Hgood. now apply invalidPrompt_rejects.
Qed.

Ltac run_chat :=
  unfold chat, tryCatch, generateContent, await; cbn [bind ret stateful_Monad].

(** C10. A request whose [prompt] is missing, not a string or blank is
    answered with the client error before the cache is consulted: the state
    is returned as it was, so no catalog fetch is made and the snapshot is
    unchanged. *)
Theorem chat_rejects_before_cache fmt now upstream engine body p w :
  destructure body "prompt" = Ok p ->
  badPrompt p ->
  chat fmt now upstream engine body w = (Ok badRequest, w)
  /\ fetches (snd (chat fmt now upstream engine body w)) = fetches w
  /\ cache (snd (chat fmt now upstream engine body w)) = cache w.
Proof.
  intros Hbody Hbad.
  assert (Hrun : chat fmt now upstream engine body w = (Ok badRequest, w)).
  { run_chat. now rewrite Hbody, (invalidPrompt_bad p Hbad). }
  rewrite Hrun. auto.
Qed.

Lemma chat_rejects_before_cache_witness :
  chat decimal noon offline echo (VObj [("prompt", VStr "   ")]) stale
  = (Ok badRequest, stale)
  /\ fetches (snd (chat decimal noon offline echo (VObj [("prompt", VStr "   ")]) stale))
     = 0%nat
  /\ cache (snd (chat decimal noon offline echo (VObj [("prompt", VStr "   ")]) stale))
     = cache stale.
Proof.
  apply (chat_rejects_before_cache decimal noon offline echo
           (VObj [("prompt", VStr "   ")]) (VStr "   ") stale).
  - reflexivity.
  - apply bad_blank. reflexivity.
Defined.

(** A generated text of two bullet points on two lines: four words, but
    three pieces between single spaces, and the estimate sent is the product
    for three. *)
Lemma token_estimate_counterexample :
  exists text estimate used,
    fst (chat decimal noon offline bullets cheapShoes warm)
    = Ok {| statusCode := 200; payload := ChatPayload text estimate used |}
    /\ words text = 4%nat
    /\ PrimFloat.eqb estimate (PrimFloat.mul (numberOfNat (words text)) factor) = false.
Proof.
  exists ("- Sneaker" ++ nl ++ "- Boot"), (PrimFloat.mul 3 factor), 1%nat.
  repeat split; reflexivity.
Qed.

(** C8, amended. The chat endpoint answers
    - the client error, when the [prompt] read from the body is missing, not
      a string, or empty after trimming;
    - on success of the whole pipeline, the generated text, the token
      estimate, which is the binary64 product of the number of pieces the
      text splits into at single spaces and 1.33, and the number of products
      put in the context;
    - the server error carrying the message of the failure, when any step
      of the pipeline throws. *)
Theorem chat_replies fmt now upstream engine body w :
  (forall p,
      destructure body "prompt" = Ok p -> badPrompt p ->
      chat fmt now upstream engine body w = (Ok badRequest, w))
  /\ (forall query ps w1 context text,
         destructure body "prompt" = Ok (VStr query) -> ~ badPrompt (VStr query) ->
         getProducts fmt now upstream w = (Ok ps, w1) ->
         buildProductContext fmt ps = Ok context ->
         engine (constrainedPrompt query context) = Ok text ->
         chat fmt now upstream engine body w
         = (Ok {| statusCode := 200;
                  payload := ChatPayload
                               text
                               (PrimFloat.mul
                                  (numberOfNat (List.length (split " "%char text)))
                                  factor)
                               (List.length ps) |},
            w1))
  /\ (forall e w1,
         pipelineFails fmt now upstream engine body w e w1 ->
         chat fmt now upstream engine body w = (Ok (serverError e), w1)).
Proof.
  repeat split.
  - intros p Hbody Hbad. run_chat. now rewrite Hbody, (invalidPrompt_bad p Hbad).
  - intros query ps w1 context text Hbody Hgood Hget Hctx Hgen. run_chat.
    rewrite Hbody, (accepted_is_valid _ Hgood), Hget. cbn [ToString].
    rewrite Hctx, Hgen. reflexivity.
  - intros e w1 Hfail. run_chat.
    destruct Hfail;
      repeat (cbn [ToString];
              match goal with H : _ = _ |- _ => rewrite H; clear H end);
      reflexivity.
Qed.

Lemma chat_replies_witness :
  chat decimal noon offline echo (VObj []) warm = (Ok badRequest, warm)
  /\ fst (chat decimal noon offline echo cheapShoes warm)
     = Ok {| statusCode := 200;
             payload := ChatPayload "Try the Sneaker today"
                                    (PrimFloat.mul 4 factor) 1 |}
  /\ fst (chat decimal noon offline echo cheapShoes stale)
     = Ok (serverError (mkError "FetchError" "request to catalog failed")).
Proof.
  split; [ | split].
  - apply (proj1 (chat_replies decimal noon offline echo (VObj []) warm) VUndefined).
    + reflexivity.
    + apply bad_missing.
  - rewrite (proj1 (proj2 (chat_replies decimal noon offline echo cheapShoes warm))
               "Show me cheap shoes" [sneaker]
               (snd (getProducts decimal noon offline warm))
               (join (nl ++ nl) [blockTemplate "Sneaker" "No description" "20"
                                               "Uncategorized"])
               "Try the Sneaker today").
    + reflexivity.
    + reflexivity.
    + apply invalidPrompt_good. reflexivity.
    + reflexivity.
    + reflexivity.
    + reflexivity.
  - rewrite (proj2 (proj2 (chat_replies decimal noon offline echo cheapShoes stale))
               (mkError "FetchError" "request to catalog failed")
               (snd (getProducts decimal noon offline stale))).
    + reflexivity.
    + apply (fails_products decimal noon offline echo cheapShoes stale
               (VStr "Show me cheap shoes")); reflexivity.
Defined.

(** ** The ttl *)

Lemma getProducts_cache fmt now upstream w :
  cache (snd (getProducts fmt now upstream w)) = cache w
  \/ exists ps t,
      cache (snd (getProducts fmt now upstream w)) = installed ps t
      /\ fst (getProducts fmt now upstream w) = Ok ps.
Proof.
  destruct (valid (cache w) (now (ticks w))) eqn:Hv.
  - left. destruct (getProducts_on_valid fmt now upstream w Hv) as [n ->]. reflexivity.
  - destruct (getProducts_miss fmt now upstream w Hv) as [n ->].
    destruct (fetched fmt (upstream (fetches w))) as [p | e]; simpl; eauto.
Qed.

Lemma fetchProducts_cache fmt now upstream w :
  cache (snd (fetchProducts fmt now upstream w)) = cache w
  \/ exists ps t,
      cache (snd (fetchProducts fmt now upstream w)) = installed ps t
      /\ fst (fetchProducts fmt now upstream w) = Ok ps.
Proof.
  run. destruct (upstream (fetches w)) as [r | e]; simpl; auto.
  destruct (ok r); simpl; auto.
  destruct (json r) as [d | e]; simpl; auto.
  destruct (selectProducts d) as [p | e]; simpl; auto.
  destruct (isArray p); simpl; auto.
  right. exists (elements p), (now (ticks w)). split; reflexivity.
Qed.

Lemma chat_state fmt now upstream engine body w :
  snd (chat fmt now upstream engine body w) = w
  \/ snd (chat fmt now upstream engine body w) = snd (getProducts fmt now upstream w).
Proof.
  run_chat. destruct (destructure body "prompt") as [p | e]; simpl; auto.
  destruct (invalidPrompt p) as [[ | ] | e]; simpl; auto.
  destruct (getProducts fmt now upstream w) as [[ps | e] w1]; simpl; auto.
  destruct (ToString fmt p) as [query | e]; simpl; auto.
  destruct (buildProductContext fmt ps) as [context | e]; simpl; auto.
  destruct (engine (constrainedPrompt query context)); simpl; auto.
Qed.

Lemma chat_cache fmt now upstream engine body w :
  cache (snd (chat fmt now upstream engine body w)) = cache w
  \/ cache (snd (chat fmt now upstream engine body w))
     = cache (snd (getProducts fmt now upstream w)).
Proof.
  destruct (chat_state fmt now upstream engine body w) as [-> | ->]; auto.
Qed.

(** C9. Every snapshot the process can hold, the one it starts with and
    every one a call leaves, has a ttl of 10 minutes.  A call of
    [getProducts] either leaves the snapshot as it is or replaces it as a
    whole; and a call on a snapshot that is not valid whose fetch succeeds
    does replace it, by the fetched list, the reading of [Date.now()] made
    after the fetch, and the ttl of 10 minutes again. *)
Theorem ttl_is_ten_minutes fmt now upstream engine w :
  reachable fmt now upstream engine w ->
  ttl (cache w) = 10 * 60 * 1000
  /\ (cache (snd (getProducts fmt now upstream w)) = cache w
      \/ exists ps t,
          cache (snd (getProducts fmt now upstream w))
          = {| data := ps; lastUpdated := Some t; ttl := 10 * 60 * 1000 |}
          /\ fst (getProducts fmt now upstream w) = Ok ps)
  /\ (forall p,
         valid (cache w) (now (ticks w)) = false ->
         fetched fmt (upstream (fetches w)) = Ok p ->
         exists k,
           (ticks w <= k)%nat
           /\ cache (snd (getProducts fmt now upstream w))
              = {| data := elements p; lastUpdated := Some (now k);
                   ttl := 10 * 60 * 1000 |}
           /\ fst (getProducts fmt now upstream w) = Ok (elements p)).
Proof.
  intros Hreach. split; [ | split; [apply getProducts_cache | ]].
  - induction Hreach as [ | w _ IH | w _ IH | w body _ IH].
    + reflexivity.
    + destruct (getProducts_cache fmt now upstream w) as [-> | (ps & t & -> & _)];
        [exact IH | reflexivity].
    + destruct (fetchProducts_cache fmt now upstream w) as [-> | (ps & t & -> & _)];
        [exact IH | reflexivity].
    + destruct (chat_cache fmt now upstream engine body w) as [-> | ->]; [exact IH | ].
      destruct (getProducts_cache fmt now upstream w) as [-> | (ps & t & -> & _)];
        [exact IH | reflexivity].
  - intros p Hv Hfetched. clear Hreach.
    assert (Hcheck : exists w1, cacheIsValid now w = (Ok false, w1)
                                /\ fetches w1 = fetches w /\ (ticks w <= ticks w1)%nat).
    { unfold cacheIsValid, readCache, dateNow. cbn [bind ret stateful_Monad].
      unfold valid in Hv.
      destruct (0 <? List.length (data (cache w)))%nat; cbn [andb] in Hv.
      - rewrite Hv. eexists. split; [reflexivity | ]. cbn. auto.
      - eexists. split; [reflexivity | ]. auto. }
    destruct Hcheck as (w1 & Hrun & Hf & Ht).
    rewrite (getProducts_after_check fmt now upstream w w1 Hrun), Hf, Hfetched.
    exists (ticks w1). repeat split. exact Ht.
Qed.

Lemma ttl_is_ten_minutes_witness :
  ttl (cache boot) = 600000
  /\ exists k,
      cache (snd (getProducts decimal ticking (serving (VArr [sneaker])) boot))
      = {| data := [sneaker]; lastUpdated := Some (ticking k); ttl := 600000 |}.
Proof.
  destruct (ttl_is_ten_minutes decimal ticking (serving (VArr [sneaker])) echo boot)
    as (Httl & _ & Hinstall).
  - apply reach_boot.
  - split; [exact Httl | ].
    destruct (Hinstall (VArr [sneaker])) as (k & _ & Hcache & _).
    + reflexivity.
    + reflexivity.
    + exists k. exact Hcache.
Defined.

(** * Further properties of the code *)

(** ** Network calls of [getProducts] *)

(** X1. [getProducts] calls the catalog source exactly when the snapshot is not
    valid at the clock reading of the check, and then once. *)
Theorem getProducts_network_calls fmt now upstream w :
  fetches (snd (getProducts fmt now upstream w))
  = if valid (cache w) (now (ticks w)) then fetches w else S (fetches w).
Proof.
  destruct (valid (cache w) (now (ticks w))) eqn:Hv.
  - now destruct (getProducts_on_valid fmt now upstream w Hv) as [n ->].
  - destruct (getProducts_miss fmt now upstream w Hv) as [n ->].
    now destruct (fetched fmt (upstream (fetches w))).
Qed.

(** X2. The list [getProducts] returns is the list the cache holds when it
    returns. *)
Theorem getProducts_returns_cached fmt now upstream w ps :
  fst (getProducts fmt now upstream w) = Ok ps ->
  data (cache (snd (getProducts fmt now upstream w))) = ps.
Proof.
  destruct (valid (cache w) (now (ticks w))) eqn:Hv.
  - destruct (getProducts_on_valid fmt now upstream w Hv) as [n ->].
    now intros [= <-].
  - destruct (getProducts_miss fmt now upstream w Hv) as [n ->].
    destruct (fetched fmt (upstream (fetches w))); simpl;
      [now intros [= <-] | discriminate].
Qed.

Lemma getProducts_returns_cached_witness :
  data (cache (snd (getProducts decimal noon (serving (VArr [sneaker; freebie])) stale)))
  = [sneaker; freebie].
Proof.
  apply (getProducts_returns_cached decimal noon (serving (VArr [sneaker; freebie])) stale).
  reflexivity.
Defined.

(** X3. [getProducts] throws exactly when the snapshot is not valid and the
    fetch fails, and what it throws is the error of that failure: the
    rejection of the network call or of a body read, the status error, the
    error of probing [null], the error of converting the selection's
    [length] for the log line, or the error of the array test. *)
Theorem getProducts_throws_iff fmt now upstream w e :
  fst (getProducts fmt now upstream w) = Throw e
  <-> valid (cache w) (now (ticks w)) = false
      /\ fetchFails fmt (upstream (fetches w)) e.
Proof.
  rewrite fetchFails_fetched. split.
  - destruct (valid (cache w) (now (ticks w))) eqn:Hv.
    + destruct (getProducts_on_valid fmt now upstream w Hv) as [n ->]. discriminate.
    + destruct (getProducts_miss fmt now upstream w Hv) as [n ->].
      destruct (fetched fmt (upstream (fetches w))); simpl; [discriminate | ].
      now intros [= <-].
  - intros [Hv Hfail]. destruct (getProducts_miss fmt now upstream w Hv) as [n ->].
    now rewrite Hfail.
Qed.

(** ** Successive calls *)

(** X4. After a miss that fetched a non-empty list, the next call within ten
    minutes of the refresh returns that list without a network call; a call
    made ten minutes or more after the refresh makes one more network
    call. *)
Theorem getProducts_refresh_then_hit fmt now upstream w p :
  valid (cache w) (now (ticks w)) = false ->
  fetched fmt (upstream (fetches w)) = Ok p ->
  elements p <> [] ->
  forall w1, w1 = snd (getProducts fmt now upstream w) ->
  (now (ticks w1) - toNumber (lastUpdated (cache w1)) < 1000 * 60 * 10 ->
   fst (getProducts fmt now upstream w1) = Ok (elements p)
   /\ fetches (snd (getProducts fmt now upstream w1)) = S (fetches w))
  /\ (1000 * 60 * 10 <= now (ticks w1) - toNumber (lastUpdated (cache w1)) ->
      fetches (snd (getProducts fmt now upstream w1)) = S (S (fetches w))).
Proof.
  intros Hv Hfetched Hne w1 ->.
  destruct (getProducts_miss fmt now upstream w Hv) as [n ->]. rewrite Hfetched.
  cbn [snd]. set (w1 := {| cache := _; ticks := S n; fetches := S (fetches w) |}).
  split.
  - intros Hage.
    assert (Hv1 : valid (cache w1) (now (ticks w1)) = true)
      by (apply valid_iff; split; [exact Hne | exact Hage]).
    destruct (getProducts_on_valid fmt now upstream w1 Hv1) as [m ->]. split; reflexivity.
  - intros Hage.
    assert (Hv1 : valid (cache w1) (now (ticks w1)) = false)
      by (unfold valid; apply andb_false_iff; right; apply Z.ltb_ge; exact Hage).
    destruct (getProducts_miss fmt now upstream w1 Hv1) as [m ->].
    now destruct (fetched fmt (upstream (fetches w1))).
Qed.

Lemma getProducts_refresh_then_hit_witness :
  (fst (getProducts decimal ticking (serving (VArr [sneaker]))
          (snd (getProducts decimal ticking (serving (VArr [sneaker])) boot)))
   = Ok [sneaker]
   /\ fetches (snd (getProducts decimal ticking (serving (VArr [sneaker]))
                      (snd (getProducts decimal ticking (serving (VArr [sneaker])) boot))))
      = 1%nat)
  /\ fetches (snd (getProducts decimal leaping (serving (VArr [sneaker]))
                     (snd (getProducts decimal leaping (serving (VArr [sneaker])) boot))))
     = 2%nat.
Proof.
  split.
  - apply (getProducts_refresh_then_hit decimal ticking (serving (VArr [sneaker])) boot
             (VArr [sneaker])); try reflexivity.
    discriminate.
  - apply (getProducts_refresh_then_hit decimal leaping (serving (VArr [sneaker])) boot
             (VArr [sneaker])); try reflexivity.
    + discriminate.
    + vm_compute. discriminate.
Defined.

(** X5. A fetch that yields the empty array succeeds with the empty list, and
    the snapshot it installs is never valid: the next call fetches again,
    whatever the clock reads. *)
Theorem empty_catalog_is_refetched fmt now upstream w p :
  valid (cache w) (now (ticks w)) = false ->
  fetched fmt (upstream (fetches w)) = Ok p ->
  elements p = [] ->
  fst (getProducts fmt now upstream w) = Ok []
  /\ fetches (snd (getProducts fmt now upstream (snd (getProducts fmt now upstream w))))
     = S (S (fetches w)).
Proof.
  intros Hv Hfetched Hempty.
  destruct (getProducts_miss fmt now upstream w Hv) as [n ->]. rewrite Hfetched.
  cbn [fst snd]. rewrite Hempty. split; [reflexivity | ].
  set (w1 := {| cache := _; ticks := S n; fetches := S (fetches w) |}).
  assert (Hv1 : valid (cache w1) (now (ticks w1)) = false) by now apply valid_empty.
  destruct (getProducts_miss fmt now upstream w1 Hv1) as [m ->].
  now destruct (fetched fmt (upstream (fetches w1))).
Qed.

Lemma empty_catalog_is_refetched_witness :
  fst (getProducts decimal noon (serving (VObj [("content", VArr [])])) boot) = Ok []
  /\ fetches (snd (getProducts decimal noon (serving (VObj [("content", VArr [])]))
                     (snd (getProducts decimal noon
                             (serving (VObj [("content", VArr [])])) boot))))
     = 2%nat.
Proof.
  apply (empty_catalog_is_refetched decimal noon (serving (VObj [("content", VArr [])]))
           boot (VArr [])); reflexivity.
Defined.

(** ** [fetchProducts] *)

(** The run of [fetchProducts] when the fetch path succeeds. *)
Lemma fetchProducts_success fmt now upstream w p :
  fetched fmt (upstream (fetches w)) = Ok p ->
  fetchProducts fmt now upstream w
  = (Ok (elements p),
     {| cache := installed (elements p) (now (ticks w));
        ticks := S (ticks w); fetches := S (fetches w) |}).
Proof.
  unfold fetched. run. cbn [fetches cache ticks].
  destruct (upstream (fetches w)) as [r | e]; [ | discriminate].
  destruct (ok r); cbn [negb].
  - destruct (json r) as [d | e]; [ | discriminate].
    destruct (selectProducts d) as [q | e]; [ | discriminate].
    destruct (getProp q "length") as [len | e]; [ | discriminate].
    destruct (ToString fmt len) as [parsed | e]; [ | discriminate].
    destruct (isArray q); [ | discriminate]. now intros [= <-].
  - destruct (text r); discriminate.
Qed.

(** X6. [fetchProducts] never looks at the cache: from any state it calls the
    catalog source once.  When the fetch path succeeds it installs the list
    with the clock reading and returns it; when the status is not a success
    or the selection is not an array it throws its own errors; and whenever
    it throws, the snapshot is unchanged. *)
Theorem fetchProducts_bypasses_cache fmt now upstream w :
  fetches (snd (fetchProducts fmt now upstream w)) = S (fetches w)
  /\ (forall p,
         fetched fmt (upstream (fetches w)) = Ok p ->
         fetchProducts fmt now upstream w
         = (Ok (elements p),
            {| cache := installed (elements p) (now (ticks w));
               ticks := S (ticks w); fetches := S (fetches w) |}))
  /\ (forall r,
         upstream (fetches w) = Ok r -> ok r = false ->
         fst (fetchProducts fmt now upstream w)
         = Throw (Error ("Products API failed with status " ++ fmt (status r))))
  /\ (forall r d p,
         upstream (fetches w) = Ok r -> ok r = true -> json r = Ok d ->
         selectProducts d = Ok p -> isArray p = false ->
         fst (fetchProducts fmt now upstream w)
         = Throw (Error "Invalid products data format"))
  /\ (forall e,
         fst (fetchProducts fmt now upstream w) = Throw e ->
         cache (snd (fetchProducts fmt now upstream w)) = cache w).
Proof.
  split; [ | split; [apply fetchProducts_success | ]].
  - run. cbn [fetches cache ticks].
    destruct (upstream (fetches w)) as [r | e0]; [ | reflexivity].
    destruct (ok r); cbn [negb]; [ | reflexivity].
    destruct (json r) as [d | e0]; [ | reflexivity].
    destruct (selectProducts d) as [p | e0]; [ | reflexivity].
    destruct (isArray p); reflexivity.
  - run. cbn [fetches cache ticks].
    destruct (upstream (fetches w)) as [r | e0]; cbn [fst snd fetches cache];
      [destruct (ok r) eqn:Hok; cbn [negb fst snd fetches cache];
       [destruct (json r) as [d | e0] eqn:Hjson; cbn [fst snd fetches cache];
        [destruct (selectProducts d) as [p | e0] eqn:Hsel; cbn [fst snd fetches cache];
         [destruct (isArray p) eqn:Harr; cbn [negb fst snd fetches cache] | ] | ] | ] | ];
      repeat split; intros;
      repeat match goal with
             | H : Ok _ = Ok _ |- _ => injection H as H; subst
             end;
      try discriminate; try congruence; try reflexivity.
Qed.

Lemma fetchProducts_bypasses_cache_witness :
  fetches (snd (fetchProducts decimal noon (serving (VArr [freebie])) warm)) = 1%nat
  /\ fetchProducts decimal noon (serving (VArr [freebie])) warm
     = (Ok [freebie],
        {| cache := installed [freebie] 1700000000000; ticks := 1; fetches := 1 |}).
Proof.
  destruct (fetchProducts_bypasses_cache decimal noon (serving (VArr [freebie])) warm)
    as (Hcalls & Hok & _).
  split; [exact Hcalls | ]. apply (Hok (VArr [freebie])). reflexivity.
Defined.

Lemma cacheIsValid_empty now w :
  data (cache w) = [] -> cacheIsValid now w = (Ok false, w).
Proof.
  intros Hempty. unfold cacheIsValid, readCache. cbn [bind ret stateful_Monad].
  rewrite Hempty. reflexivity.
Qed.

(** X7. On an empty snapshot [getProducts] and [fetchProducts] do the same when
    the fetch succeeds: same list returned, same state left. *)
Theorem getProducts_agrees_with_fetchProducts fmt now upstream w p :
  data (cache w) = [] ->
  fetched fmt (upstream (fetches w)) = Ok p ->
  getProducts fmt now upstream w = fetchProducts fmt now upstream w.
Proof.
  intros Hempty Hfetched.
  rewrite (fetchProducts_success fmt now upstream w p Hfetched).
  rewrite (getProducts_after_check fmt now upstream w w
             (cacheIsValid_empty now w Hempty)).
  now rewrite Hfetched.
Qed.

Lemma getProducts_agrees_with_fetchProducts_witness :
  getProducts decimal noon (serving (VObj [("items", VArr [sneaker])])) boot
  = fetchProducts decimal noon (serving (VObj [("items", VArr [sneaker])])) boot.
Proof.
  apply (getProducts_agrees_with_fetchProducts
           decimal noon (serving (VObj [("items", VArr [sneaker])])) boot
           (VArr [sneaker]));
    reflexivity.
Defined.

(** ** The snapshots the process holds *)

Lemma cacheIsValid_state now w :
  exists w1,
    cacheIsValid now w = (Ok (valid (cache w) (now (ticks w))), w1)
    /\ cache w1 = cache w /\ fetches w1 = fetches w /\ (ticks w <= ticks w1)%nat.
Proof.
  unfold cacheIsValid, readCache, dateNow, valid. cbn [bind ret stateful_Monad].
  destruct (0 <? List.length (data (cache w)))%nat; eexists; split;
    try reflexivity; cbn; auto.
Qed.

Lemma stamped_later now c k f k' f' :
  stamped now {| cache := c; ticks := k; fetches := f |} -> (k <= k')%nat ->
  stamped now {| cache := c; ticks := k'; fetches := f' |}.
Proof.
  intros [Hinit | (ps & j & Hc & Hj)] Hle; [now left | right].
  exists ps, j. simpl in *. split; [assumption | lia].
Qed.

Lemma getProducts_stamped fmt now upstream w :
  stamped now w ->
  stamped now (snd (getProducts fmt now upstream w))
  /\ (ticks w <= ticks (snd (getProducts fmt now upstream w)))%nat.
Proof.
  intros Hw. destruct (cacheIsValid_state now w) as (w1 & Hrun & Hc & Hf & Ht).
  assert (Hw1 : stamped now w1).
  { destruct w as [c k f], w1 as [c1 k1 f1]. simpl in *. subst c1.
    now apply (stamped_later now c k f). }
  destruct (valid (cache w) (now (ticks w))).
  - unfold getProducts, tryCatch, readCache. cbn [bind ret stateful_Monad].
    rewrite Hrun. cbn. auto.
  - rewrite (getProducts_after_check fmt now upstream w w1 Hrun).
    destruct (fetched fmt (upstream (fetches w1))) as [p | e]; cbn [snd ticks]; split;
      try lia.
    + right. exists (elements p), (ticks w1). cbn. split; [reflexivity | lia].
    + destruct w1 as [c1 k1 f1]. now apply (stamped_later now c1 k1 f1).
Qed.

Lemma fetchProducts_stamped fmt now upstream w :
  stamped now w -> stamped now (snd (fetchProducts fmt now upstream w)).
Proof.
  intros Hw. run. cbn [fetches cache ticks].
  assert (Hkeep : stamped now {| cache := cache w; ticks := ticks w;
                                 fetches := S (fetches w) |}).
  { destruct w as [c k f]. now apply (stamped_later now c k f). }
  destruct (upstream (fetches w)) as [r | e]; cbn [snd]; [ | exact Hkeep].
  destruct (ok r); cbn [negb snd]; [ | exact Hkeep].
  destruct (json r) as [d | e]; cbn [snd]; [ | exact Hkeep].
  destruct (selectProducts d) as [p | e]; cbn [snd]; [ | exact Hkeep].
  destruct (isArray p); cbn [negb snd]; [ | exact Hkeep].
  right. exists (elements p), (ticks w). cbn. split; [reflexivity | lia].
Qed.

(** X8. In every state the process reaches, the snapshot is the initial one or
    was installed whole at a clock reading already made: a list that is not
    empty always comes with the reading of [Date.now()] at which it was
    stored, so the age the check computes is an age since a real fetch. *)
Theorem reachable_stamped fmt now upstream engine w :
  reachable fmt now upstream engine w ->
  stamped now w
  /\ (data (cache w) <> [] ->
      exists k, (k < ticks w)%nat /\ lastUpdated (cache w) = Some (now k)).
Proof.
  intros Hreach.
  assert (Hst : stamped now w).
  { induction Hreach as [ | w _ IH | w _ IH | w body _ IH].
    - now left.
    - now apply getProducts_stamped.
    - now apply fetchProducts_stamped.
    - destruct (chat_state fmt now upstream engine body w) as [-> | ->];
        [exact IH | now apply getProducts_stamped]. }
  split; [exact Hst | ].
  destruct Hst as [-> | (ps & k & -> & Hk)]; intros Hne.
  - now elim Hne.
  - exists k. auto.
Qed.

Lemma reachable_stamped_witness :
  stamped ticking (snd (getProducts decimal ticking (serving (VArr [sneaker])) boot)).
Proof.
  apply (reachable_stamped decimal ticking (serving (VArr [sneaker])) echo
           (snd (getProducts decimal ticking (serving (VArr [sneaker])) boot))).
  apply reach_getProducts, reach_boot.
Defined.

(** ** Validation of the prompt *)

Lemma trimStart_allWhiteSpace s : allWhiteSpace s = true -> trimStart s = "".
Proof.
  induction s as [ | c s IH]; [reflexivity | ]. cbn [allWhiteSpace trimStart].
  intros H. apply andb_true_iff in H. destruct H as [-> Hs]. auto.
Qed.

Lemma trimEnd_empty_iff s : trimEnd s = "" <-> allWhiteSpace s = true.
Proof.
  induction s as [ | c s IH]; [now split | ]. cbn [allWhiteSpace trimEnd].
  destruct (trimEnd s) as [ | c' kept].
  - destruct (isWhiteSpace c); cbn [andb]; [ | split; discriminate].
    split; intros _; [now apply IH | reflexivity].
  - split; [discriminate | ]. intros H. apply andb_true_iff in H.
    destruct H as [_ Hs]. apply IH in Hs. discriminate.
Qed.

Lemma trimStart_head s :
  trimStart s = "" /\ allWhiteSpace s = true
  \/ exists c rest, trimStart s = String c rest /\ isWhiteSpace c = false.
Proof.
  induction s as [ | c s IH]; [now left | ]. cbn [trimStart allWhiteSpace].
  destruct (isWhiteSpace c) eqn:Hc; [exact IH | right; eauto].
Qed.

Lemma trim_empty_iff s : trim s = "" <-> allWhiteSpace s = true.
Proof.
  unfold trim. split.
  - intros H. destruct (trimStart_head s) as [[_ Hall] | (c & rest & Hs & Hc)];
      [exact Hall | ].
    rewrite Hs in H. apply trimEnd_empty_iff in H. cbn [allWhiteSpace] in H.
    rewrite Hc in H. discriminate.
  - intros H. now rewrite (trimStart_allWhiteSpace s H).
Qed.

(** X9. A prompt that is a string is rejected exactly when each of its
    characters is white space, the empty string included: one character
    that is not white space is enough for the prompt to be accepted. *)
Theorem invalidPrompt_string s : invalidPrompt (VStr s) = Ok (allWhiteSpace s).
Proof.
  destruct (allWhiteSpace s) eqn:Hall.
  - apply invalidPrompt_bad, bad_blank, trim_empty_iff, Hall.
  - destruct (invalidPrompt_total (VStr s)) as [[ | ] Hinv]; [ | exact Hinv].
    apply invalidPrompt_rejects in Hinv. inversion Hinv as [ | v Htype | s' Hblank]; subst.
    + now elim Htype.
    + apply trim_empty_iff in Hblank. congruence.
Qed.

(** ** The token estimate *)

Lemma split_length c s : List.length (split c s) = S (occurrences c s).
Proof.
  induction s as [ | c' s IH]; [reflexivity | ]. cbn [split occurrences].
  destruct (Ascii.eqb c' c); cbn [List.length]; [now rewrite IH | ].
  destruct (split c s) as [ | piece pieces]; [discriminate | ].
  cbn [List.length] in *. cbn. exact IH.
Qed.

(** X10. The count the estimate multiplies is one more than the number of space
    characters of the response: runs of spaces count once per space, other
    white space separates nothing, and the empty response counts 1, so the
    exact product of the count and 1.33 is never below 1.33. *)
Theorem tokenEstimate_counts_spaces response :
  wordCount response = S (occurrences " "%char response)
  /\ (133 # 100 <= inject_Z (Z.of_nat (wordCount response)) * (133 # 100))%Q.
Proof.
  assert (Hcount : wordCount response = S (occurrences " "%char response))
    by apply split_length.
  split; [exact Hcount | ].
  rewrite Hcount. unfold Qle, Qmult, inject_Z. cbn [Qnum Qden]. lia.
Qed.

(** Joining the pieces of [split] with the separator gives the string
    back. *)
Lemma join_split c s : join (String c "") (split c s) = s.
Proof.
  induction s as [ | c' s IH]; [reflexivity | ]. cbn [split].
  destruct (Ascii.eqb_spec c' c) as [-> | Hneq].
  - destruct (split c s) as [ | piece pieces] eqn:Hs.
    + pose proof (split_length c s) as Hlen. rewrite Hs in Hlen. discriminate.
    + change (join (String c "") ("" :: piece :: pieces))
        with ("" ++ String c "" ++ join (String c "") (piece :: pieces)).
      rewrite IH. reflexivity.
  - destruct (split c s) as [ | piece pieces] eqn:Hs.
    + pose proof (split_length c s) as Hlen. rewrite Hs in Hlen. discriminate.
    + destruct pieces as [ | piece' pieces'].
      * cbn [join] in *. now rewrite IH.
      * change (join (String c "") (String c' piece :: piece' :: pieces'))
          with (String c' (piece ++ String c "" ++ join (String c "") (piece' :: pieces'))).
        change (join (String c "") (piece :: piece' :: pieces'))
          with (piece ++ String c "" ++ join (String c "") (piece' :: pieces')) in IH.
        now rewrite IH.
Qed.

(** ** Failures of the catalog text *)

(** X11. The catalog text is built exactly when every element of the list
    can be rendered: none is [null] or [undefined], and none has, among its
    four fields, a truthy value that cannot be converted to a string (an
    object with an own property [toString], or an array that holds one).
    Otherwise the callback throws at the first element that cannot, and
    whatever is thrown is a [TypeError]. *)
Theorem buildProductContext_ok_iff fmt ps :
  ((exists text, buildProductContext fmt ps = Ok text) <-> Forall renderable ps)
  /\ (forall e, buildProductContext fmt ps = Throw e -> ename e = "TypeError").
Proof.
  unfold buildProductContext. cbn [bind ret result_Monad].
  destruct (arrayMap_cases fmt ps) as [[Hall (blocks & -> & _)] | (Hnot & e0 & -> & Hname)].
  - split; [ | discriminate]. split; eauto.
  - split; [ | now intros e [= <-]].
    split; [intros [text Habs]; discriminate | contradiction].
Qed.

(** ** Replies of the chat endpoint *)

(** X12. The handler never throws: it answers every body, from every state, with
    status 200, 400 or 500, after at most one call of the catalog source. *)
Theorem chat_always_replies fmt now upstream engine body w :
  exists reply w',
    chat fmt now upstream engine body w = (Ok reply, w')
    /\ (statusCode reply = 200 \/ statusCode reply = 400 \/ statusCode reply = 500)
    /\ (fetches w' = fetches w \/ fetches w' = S (fetches w)).
Proof.
  assert (Hcalls : fetches (snd (getProducts fmt now upstream w))
                   = if valid (cache w) (now (ticks w)) then fetches w
                     else S (fetches w)).
  { destruct (valid (cache w) (now (ticks w))) eqn:Hv.
    - now destruct (getProducts_on_valid fmt now upstream w Hv) as [n ->].
    - destruct (getProducts_miss fmt now upstream w Hv) as [n ->].
      now destruct (fetched fmt (upstream (fetches w))). }
  run_chat. destruct (destructure body "prompt") as [p | e]; [ | cbn; eauto 8].
  destruct (invalidPrompt p) as [[ | ] | e]; [cbn; eauto 8 | | cbn; eauto 8].
  destruct (getProducts fmt now upstream w) as [[ps | e] w1]; cbn [snd] in Hcalls;
    assert (Hf : fetches w1 = fetches w \/ fetches w1 = S (fetches w))
      by (rewrite Hcalls; destruct (valid (cache w) (now (ticks w))); auto);
    [ | cbn; eauto 8].
  destruct (ToString fmt p) as [query | e]; [ | cbn; eauto 8].
  destruct (buildProductContext fmt ps) as [context | e]; [ | cbn; eauto 8].
  destruct (engine (constrainedPrompt query context)); cbn; eauto 8.
Qed.

(** X13. What each status of a reply tells: 400, that the prompt was missing,
    not a string or blank, and the state is untouched; 500, that a step of
    the pipeline threw the error whose message is sent; 200, that every step
    succeeded, with the products counted being the list [getProducts]
    returned. *)
Theorem chat_status_sound fmt now upstream engine body w reply w' :
  chat fmt now upstream engine body w = (Ok reply, w') ->
  (statusCode reply = 400 ->
   exists p, destructure body "prompt" = Ok p /\ badPrompt p /\ w' = w)
  /\ (statusCode reply = 500 ->
      exists e, pipelineFails fmt now upstream engine body w e w'
                /\ reply = serverError e)
  /\ (statusCode reply = 200 ->
      exists query ps context text,
        destructure body "prompt" = Ok (VStr query) /\ ~ badPrompt (VStr query)
        /\ getProducts fmt now upstream w = (Ok ps, w')
        /\ buildProductContext fmt ps = Ok context
        /\ engine (constrainedPrompt query context) = Ok text
        /\ payload reply = ChatPayload text (tokenEstimateOf text) (List.length ps)).
Proof.
  run_chat. destruct (destructure body "prompt") as [p | e] eqn:Hbody.
  - destruct (invalidPrompt_total p) as [[ | ] Hinv]; rewrite Hinv.
    + intros [= <- <-]. repeat split; try discriminate.
      intros _. exists p. repeat split. now apply invalidPrompt_rejects.
    + destruct (accepted_is_string p (invalidPrompt_good p Hinv)) as [query ->].
      cbn [ToString].
      destruct (getProducts fmt now upstream w) as [[ps | e] w1] eqn:Hget.
      * destruct (buildProductContext fmt ps) as [context | e] eqn:Hctx.
        -- destruct (engine (constrainedPrompt query context)) as [text | e] eqn:Hgen.
           ++ intros [= <- <-]. repeat split; try discriminate.
              intros _. exists query, ps, context, text. repeat split; auto.
              now apply invalidPrompt_good.
           ++ intros [= <- <-]. repeat split; try discriminate.
              intros _. exists e. split; [ | reflexivity].
              now apply fails_engine with query ps context.
        -- intros [= <- <-]. repeat split; try discriminate.
           intros _. exists e. split; [ | reflexivity].
           now apply fails_context with query ps.
      * intros [= <- <-]. repeat split; try discriminate.
        intros _. exists e. split; [ | reflexivity].
        now apply fails_products with (VStr query).
  - intros [= <- <-]. repeat split; try discriminate.
    intros _. exists e. split; [ | reflexivity]. now apply fails_body.
Qed.

Lemma chat_status_sound_witness :
  exists e,
    pipelineFails decimal noon offline echo cheapShoes stale e
                  (snd (chat decimal noon offline echo cheapShoes stale))
    /\ fst (chat decimal noon offline echo cheapShoes stale) = Ok (serverError e).
Proof.
  destruct (chat_status_sound decimal noon offline echo cheapShoes stale
              (serverError (mkError "FetchError" "request to catalog failed"))
              (snd (chat decimal noon offline echo cheapShoes stale)) eq_refl)
    as (_ & H500 & _).
  destruct (H500 eq_refl) as (e & Hfail & Hreply).
  exists e. split; [exact Hfail | ]. rewrite <- Hreply. reflexivity.
Defined.

(** X14. A fetched array that holds [null] passes the array test and is
    returned by [getProducts]; the chat that uses it is answered with status
    500 and the message of the [TypeError], without a call of the engine. *)
Theorem null_product_fails_chat fmt now upstream engine body p w ps w1 :
  destructure body "prompt" = Ok p -> ~ badPrompt p ->
  getProducts fmt now upstream w = (Ok ps, w1) ->
  In VNull ps ->
  exists e,
    chat fmt now upstream engine body w = (Ok (serverError e), w1)
    /\ ename e = "TypeError".
Proof.
  intros Hbody Hgood Hget Hnull.
  pose proof (accepted_is_valid p Hgood) as Hinv.
  destruct (accepted_is_string p Hgood) as [query ->].
  destruct (arrayMap_cases fmt ps) as [[Hall _] | (_ & e & Hmap & Hname)].
  - rewrite Forall_forall in Hall. destruct (Hall VNull Hnull) as [[Habs _] _].
    now elim Habs.
  - exists e. split; [ | exact Hname].
    run_chat. rewrite Hbody, Hinv, Hget. unfold buildProductContext.
    cbn [ToString bind ret result_Monad]. now rewrite Hmap.
Qed.

Lemma null_product_fails_chat_witness :
  exists e,
    chat decimal noon (serving (VArr [sneaker; VNull])) echo cheapShoes boot
    = (Ok (serverError e),
       snd (getProducts decimal noon (serving (VArr [sneaker; VNull])) boot))
    /\ ename e = "TypeError".
Proof.
  apply (null_product_fails_chat decimal noon (serving (VArr [sneaker; VNull])) echo
           cheapShoes (VStr "Show me cheap shoes") boot [sneaker; VNull]).
  - reflexivity.
  - apply invalidPrompt_good. reflexivity.
  - reflexivity.
  - simpl. auto.
Defined.
